(** * ADIS16490 paged register transport: a shallow embedding

    The driver of [ADIS16490.cpp] talks to the sensor over SPI.  Every
    access is a chip-select-bracketed exchange of two bytes; the register
    space is paged and the driver caches the selected page in the field
    [currentPage].

    The methods of the class are embedded as state-passing functions over a
    [machine]: the fields of the object, the device at the other end of the
    link, and the chronological trace of what the driver did to its pins and
    to the bus. *)

From Stdlib Require Import String Ascii DecimalString DecimalZ DecimalPos.
From Stdlib Require Import ZArith List Bool Lia.
From Stdlib Require Import SpecFloat QArith Qabs Qpower.
From Stdlib Require Import Lqa.
Import ListNotations.
Local Open Scope Z_scope.

(** ** Fixed-width integers

    C++ integer types are modelled in [Z] with the conversions written out. *)

Definition u8 (z : Z) : Z := Z.land z 0xFF.
Definition u16 (z : Z) : Z := Z.land z 0xFFFF.

(** Conversion to [int16_t]: keep the low 16 bits, read as two's complement. *)
Definition i16 (z : Z) : Z :=
  let w := u16 z in if w <? 0x8000 then w else w - 0x10000.

Definition is_u8 (z : Z) : Prop := 0 <= z < 256.
Definition is_u16 (z : Z) : Prop := 0 <= z < 65536.
Definition is_i16 (z : Z) : Prop := -32768 <= z < 32768.

(** ** Register map (ADIS16490.h), the constants used below *)

Definition DIAG_STS   : Z := 0x000A.
Definition TEMP_OUT   : Z := 0x000E.
Definition X_GYRO_OUT : Z := 0x0012.
Definition Y_GYRO_OUT : Z := 0x0016.
Definition Z_GYRO_OUT : Z := 0x001A.
Definition X_ACCL_OUT : Z := 0x001E.
Definition Y_ACCL_OUT : Z := 0x0022.
Definition Z_ACCL_OUT : Z := 0x0026.
Definition PAGE_ID3    : Z := 0x0300.
Definition FNCTIO_CTRL : Z := 0x0306.
Definition DEC_RATE    : Z := 0x030C.

(** ** Observable behaviour *)

(** Which group of statements of the source issued a framed exchange.  The
    tag is bookkeeping of the model: it is not visible on the wire, where a
    frame is just its four bytes. *)
Inductive site : Type :=
| PageSelect   (* "Write desired page to PAGE_ID register" *)
| AddressFrame (* regRead: "Write desired register address" *)
| DataFrame    (* regRead: "Read data from requested register" *)
| WriteLow     (* regWrite: lowWord *)
| WriteHigh    (* regWrite: highWord *)
| BurstFrame.  (* sensorRead: the chained frames *)

Definition site_eqb (a b : site) : bool :=
  match a, b with
  | PageSelect, PageSelect | AddressFrame, AddressFrame
  | DataFrame, DataFrame | WriteLow, WriteLow
  | WriteHigh, WriteHigh | BurstFrame, BurstFrame => true
  | _, _ => false
  end.

Inductive level : Type := LOW | HIGH.
Inductive pin_mode : Type := INPUT | OUTPUT.

(** [Frame cs k tx1 tx2 rx1 rx2] stands for the four statements
    [digitalWrite(cs, LOW); rx1 = SPI.transfer(tx1); rx2 = SPI.transfer(tx2);
     digitalWrite(cs, HIGH);], the only shape in which the driver uses the
    bus. *)
Inductive event : Type :=
| SPI_begin
| SPI_beginTransaction (clock : Z) (mode : Z)
| PinMode (pin : Z) (m : pin_mode)
| DigitalWrite (pin : Z) (l : level)
| Frame (cs : Z) (k : site) (tx1 tx2 rx1 rx2 : Z)
| DelayMicroseconds (us : Z)
| Delay (ms : Z).

(** The private fields of [class ADIS16490]. *)
Record ADIS16490 : Type := mkADIS16490 {
  _CS : Z;
  _DR : Z;
  _RST : Z;
  _stall : Z;
  currentPage : Z
}.

Definition is_frame_of (k : site) (e : event) : bool :=
  match e with
  | Frame _ k' _ _ _ _ => site_eqb k k'
  | _ => false
  end.

(** Number of frames of one kind in a trace. *)
Definition count_frames (k : site) (t : list event) : nat :=
  length (filter (is_frame_of k) t).

Section Transport.

(** The sensor at the other end of the link is any deterministic machine
    that answers one byte for each byte clocked out to it. *)
Variable Device : Type.
Variable shift : Device -> Z -> Device * Z.

(** [ALM_STS] is used by [sensorRead] but the header does not define it;
    it is kept as a parameter. *)
Variable ALM_STS : Z.

Record machine : Type := mkMachine {
  imu : ADIS16490;
  link : Device;
  trace : list event
}.

(** Code of the driver: a state transformer with a result. *)
Definition M (A : Type) : Type := machine -> A * machine.

Definition ret {A} (a : A) : M A := fun m => (a, m).
Definition bind {A B} (c : M A) (k : A -> M B) : M B :=
  fun m => let (a, m') := c m in k a m'.

Notation "x <- c ;; k" := (bind c (fun x => k))
  (at level 61, c at next level, right associativity).
Notation "c ;; k" := (bind c (fun _ => k))
  (at level 61, right associativity).

Definition emit (e : event) : M unit :=
  fun m => (tt, mkMachine (imu m) (link m) (trace m ++ [e])).

Definition field {A} (f : ADIS16490 -> A) : M A := fun m => (f (imu m), m).

Definition set_currentPage (p : Z) : M unit :=
  fun m => (tt, mkMachine
                  (mkADIS16490 (_CS (imu m)) (_DR (imu m)) (_RST (imu m))
                               (_stall (imu m)) p)
                  (link m) (trace m)).

(** [uint8_t SPI.transfer(uint8_t)] seen from the device: the byte goes
    out, a byte comes back. *)
Definition transfer (d : Device) (b : Z) : Device * Z :=
  (fst (shift d (u8 b)), u8 (snd (shift d (u8 b)))).

(** One framed exchange seen from the device: two transfers in a row. *)
Definition exchange (d : Device) (b1 b2 : Z) : Device * (Z * Z) :=
  let x1 := transfer d b1 in
  let x2 := transfer (fst x1) b2 in
  (fst x2, (snd x1, snd x2)).

(** [digitalWrite(_CS, LOW); SPI.transfer(b1); SPI.transfer(b2);
    digitalWrite(_CS, HIGH);] returning the two bytes received. *)
Definition frame (k : site) (b1 b2 : Z) : M (Z * Z) :=
  fun m =>
    let x := exchange (link m) b1 b2 in
    (snd x,
     mkMachine (imu m) (fst x)
       (trace m ++ [Frame (_CS (imu m)) k (u8 b1) (u8 b2)
                          (fst (snd x)) (snd (snd x))])).

Definition digitalWrite (pin : Z) (l : level) : M unit :=
  emit (DigitalWrite pin l).
Definition pinMode (pin : Z) (md : pin_mode) : M unit :=
  emit (PinMode pin md).
Definition delayMicroseconds (us : Z) : M unit := emit (DelayMicroseconds us).
Definition delay (ms : Z) : M unit := emit (Delay ms).

Definition SPI_MODE3 : Z := 3.

(** [int ADIS16490::configSPI()] *)
Definition configSPI : M Z :=
  emit (SPI_beginTransaction 2000000 SPI_MODE3) ;;
  ret 1.

(** [ADIS16490::ADIS16490(int CS, int DR, int RST)], run on a link whose
    device is [d]; [_stall] and [currentPage] take their default member
    initialisers 5 and 0x00. *)
Definition construct (CS DR RST : Z) (d : Device) : machine :=
  snd ((emit SPI_begin ;;
        configSPI ;;
        cs <- field _CS ;;
        dr <- field _DR ;;
        rst <- field _RST ;;
        pinMode cs OUTPUT ;;
        pinMode dr INPUT ;;
        pinMode rst OUTPUT ;;
        digitalWrite cs HIGH ;;
        digitalWrite rst HIGH)
         (mkMachine (mkADIS16490 CS DR RST 5 0x00) d [])).

(** [int ADIS16490::resetDUT(uint8_t ms)] *)
Definition resetDUT (ms : Z) : M Z :=
  rst <- field _RST ;;
  digitalWrite rst LOW ;;
  delayMicroseconds 500 ;;
  digitalWrite rst HIGH ;;
  delay (u8 ms) ;;
  ret 1.

(** [int16_t ADIS16490::regRead(uint16_t regAddr)].  The two transfers of
    the data frame are taken in the order they are written, upper byte
    first. *)
Definition regRead (regAddr : Z) : M Z :=
  let page := u8 (Z.land (Z.shiftr (u16 regAddr) 8) 0xFF) in
  let address := u8 (Z.land (u16 regAddr) 0xFF) in
  cur <- field currentPage ;;
  (if negb (cur =? page) then
     frame PageSelect 0x80 page ;;
     set_currentPage page ;;
     st <- field _stall ;;
     delayMicroseconds st
   else ret tt) ;;
  frame AddressFrame address 0x00 ;;
  st <- field _stall ;;
  delayMicroseconds st ;;
  rx <- frame DataFrame 0x00 0x00 ;;
  let _dataOut := u16 (Z.lor (Z.shiftl (fst rx) 8) (Z.land (snd rx) 0xFF)) in
  st <- field _stall ;;
  delayMicroseconds st ;;
  ret (i16 _dataOut).

(** [int ADIS16490::regWrite(uint16_t regAddr, int16_t regData)] *)
Definition regWrite (regAddr regData : Z) : M Z :=
  let page := u8 (Z.land (Z.shiftr (u16 regAddr) 8) 0xFF) in
  let address := u8 (Z.land (u16 regAddr) 0xFF) in
  cur <- field currentPage ;;
  (if negb (cur =? page) then
     frame PageSelect 0x80 page ;;
     set_currentPage page ;;
     st <- field _stall ;;
     delayMicroseconds st
   else ret tt) ;;
  let addr := u16 (Z.shiftl (Z.lor (Z.land address 0x7F) 0x80) 8) in
  let lowWord := u16 (Z.lor addr (Z.land (i16 regData) 0xFF)) in
  let highWord :=
    u16 (Z.lor (Z.lor addr 0x100) (Z.land (Z.shiftr (i16 regData) 8) 0xFF)) in
  frame WriteLow (Z.shiftr lowWord 8) (Z.land lowWord 0xFF) ;;
  st <- field _stall ;;
  delayMicroseconds st ;;
  frame WriteHigh (Z.shiftr highWord 8) (Z.land highWord 0xFF) ;;
  st <- field _stall ;;
  delayMicroseconds st ;;
  ret 1.

(** Joining two received bytes into one [int16_t] word, as [sensorRead]
    does for each of its nine outputs. *)
Definition join (rx : Z * Z) : Z :=
  i16 (Z.lor (Z.shiftl (fst rx) 8) (Z.land (snd rx) 0xFF)).

(** [int16_t *ADIS16490::sensorRead(void)].  [sensorbyte[2i]] and
    [sensorbyte[2i+1]] are the two bytes received in one frame; the result
    is the content of the static array [sensorwords] on return. *)
Definition sensorRead : M (list Z) :=
  cur <- field currentPage ;;
  (if negb (cur =? 0x00) then
     frame PageSelect 0x80 0x00 ;;
     set_currentPage 0x00 ;;
     delayMicroseconds 10
   else ret tt) ;;
  frame BurstFrame DIAG_STS 0x00 ;;
  delayMicroseconds 10 ;;
  sensorbyte0 <- frame BurstFrame ALM_STS 0x00 ;;
  delayMicroseconds 10 ;;
  sensorbyte2 <- frame BurstFrame X_GYRO_OUT 0x00 ;;
  delayMicroseconds 10 ;;
  sensorbyte4 <- frame BurstFrame Y_GYRO_OUT 0x00 ;;
  delayMicroseconds 10 ;;
  sensorbyte6 <- frame BurstFrame Z_GYRO_OUT 0x00 ;;
  delayMicroseconds 10 ;;
  sensorbyte8 <- frame BurstFrame X_ACCL_OUT 0x00 ;;
  delayMicroseconds 10 ;;
  sensorbyte10 <- frame BurstFrame Y_ACCL_OUT 0x00 ;;
  delayMicroseconds 10 ;;
  sensorbyte12 <- frame BurstFrame Z_ACCL_OUT 0x00 ;;
  delayMicroseconds 10 ;;
  sensorbyte14 <- frame BurstFrame TEMP_OUT 0x00 ;;
  delayMicroseconds 10 ;;
  sensorbyte16 <- frame BurstFrame 0x00 0x00 ;;
  delayMicroseconds 10 ;;
  ret [ join sensorbyte0;    (* DIAG_STS *)
        join sensorbyte2;    (* ALM_STS *)
        join sensorbyte4;    (* XGYRO *)
        join sensorbyte6;    (* YGYRO *)
        join sensorbyte8;    (* ZGYRO *)
        join sensorbyte10;   (* XACCEL *)
        join sensorbyte12;   (* YACCEL *)
        join sensorbyte14;   (* ZACCEL *)
        join sensorbyte16 ]. (* TEMP *)

(** *** Sequences of single-register operations *)

Inductive op : Type :=
| Read (regAddr : Z)
| Write (regAddr regData : Z).

Definition perform (o : op) : M Z :=
  match o with
  | Read a => regRead a
  | Write a d => regWrite a d
  end.

Fixpoint run (ops : list op) : M unit :=
  match ops with
  | [] => ret tt
  | o :: rest => perform o ;; run rest
  end.

Definition op_addr (o : op) : Z :=
  match o with
  | Read a => a
  | Write a _ => a
  end.

(** *** The link, frame by frame

    What a device answers to a list of frames, and the device after. *)
Fixpoint exchanges (d : Device) (txs : list (Z * Z)) : Device * list (Z * Z) :=
  match txs with
  | [] => (d, [])
  | (b1, b2) :: rest =>
      let x := exchange d b1 b2 in
      let r := exchanges (fst x) rest in
      (fst r, snd x :: snd r)
  end.

End Transport.

Arguments mkMachine {Device} _ _ _.
Arguments imu {Device} _.
Arguments link {Device} _.
Arguments trace {Device} _.
Arguments transfer {Device} shift d b.
Arguments exchange {Device} shift d b1 b2.
Arguments exchanges {Device} shift d txs.
Arguments frame {Device} shift k b1 b2 _.
Arguments construct {Device} CS DR RST d.
Arguments configSPI {Device} _.
Arguments resetDUT {Device} ms _.
Arguments regRead {Device} shift regAddr _.
Arguments regWrite {Device} shift regAddr regData _.
Arguments sensorRead {Device} shift ALM_STS _.
Arguments perform {Device} shift o _.
Arguments run {Device} shift ops _.

(** The page and the in-page offset of a logical register address. *)
Definition page_of (addr : Z) : Z := Z.shiftr addr 8.
Definition offset_of (addr : Z) : Z := Z.land addr 0xFF.

(** The addresses [sensorRead] asks for, in the order it asks. *)
Definition burst_order (ALM_STS : Z) : list Z :=
  [DIAG_STS; ALM_STS; X_GYRO_OUT; Y_GYRO_OUT; Z_GYRO_OUT;
   X_ACCL_OUT; Y_ACCL_OUT; Z_ACCL_OUT; TEMP_OUT].

(** What the lazy page switch does in front of an access to [page]: nothing
    when the cache already holds [page], else one frame [(0x80, page)] and a
    stall. *)
Definition select_events {Device} (shift : Device -> Z -> Device * Z)
    (page stall : Z) (m : machine Device) : list event :=
  if currentPage (imu m) =? page then []
  else
    let r := snd (exchange shift (link m) 0x80 page) in
    [Frame (_CS (imu m)) PageSelect 0x80 page (fst r) (snd r);
     DelayMicroseconds stall].

(** The device once the lazy page switch is over. *)
Definition selected {Device} (shift : Device -> Z -> Device * Z)
    (page : Z) (m : machine Device) : Device :=
  if currentPage (imu m) =? page then link m
  else fst (exchange shift (link m) 0x80 page).

(** The object with [currentPage] overwritten. *)
Definition set_page (a : ADIS16490) (p : Z) : ADIS16490 :=
  mkADIS16490 (_CS a) (_DR a) (_RST a) (_stall a) p.

(** The address byte of the frames of [regWrite]: the upper byte of the
    local [addr], that is [(address & 0x7F) | 0x80]. *)
Definition write_addr (offset : Z) : Z := Z.lor (Z.land offset 0x7F) 0x80.

(** The ten frames of a burst as byte pairs: the nine addresses of
    [burst_order], then a frame of zeros. *)
Definition burst_tx (ALM_STS : Z) : list (Z * Z) :=
  map (fun a => (a, 0x00)) (burst_order ALM_STS) ++ [(0x00, 0x00)].

(** The trace of a run of burst frames: each frame, then its 10 us stall. *)
Definition burst_events (cs : Z) (txs rxs : list (Z * Z)) : list event :=
  flat_map
    (fun x => [Frame cs BurstFrame (u8 (fst (fst x))) (u8 (snd (fst x)))
                     (fst (snd x)) (snd (snd x));
               DelayMicroseconds 10])
    (combine txs rxs).

(** The frames of a trace as they appear on the wire, with their site. *)
Definition wire (t : list event) : list (site * Z * Z) :=
  flat_map (fun e => match e with
                     | Frame _ k tx1 tx2 _ _ => [(k, tx1, tx2)]
                     | _ => []
                     end) t.

(** An operation with arguments that fit their C++ types. *)
Definition wf_op (o : op) : Prop :=
  match o with
  | Read a => is_u16 a
  | Write a d => is_u16 a /\ is_i16 d
  end.

(** The lazy page switch between [m] and [m']: [m'] is on [page]; a
    page-select frame [(0x80, page)] was issued, first, exactly when [m] was
    on another page; whatever else was issued is no page-select frame. *)
Definition lazily_selects {Device} (page : Z) (m m' : machine Device) : Prop :=
  currentPage (imu m') = page /\
  exists access,
    count_frames PageSelect access = 0%nat /\
    ((currentPage (imu m) = page /\ trace m' = trace m ++ access) \/
     (currentPage (imu m) <> page /\
      exists r1 r2 st,
        trace m' =
          trace m ++ Frame (_CS (imu m)) PageSelect 0x80 page r1 r2
                  :: DelayMicroseconds st :: access)).

(** ** Devices for the examples *)

(** A sensor with the pipelined answers of section 4.1 of the
    specification: a frame whose first byte has bit 7 clear asks for the
    16-bit register at that in-page address, and the register comes back,
    upper byte first, in the following frame; a frame whose first byte has
    bit 7 set writes its second byte at the 7-bit address, address 0 being
    the page register. *)
Record sensor : Type := mkSensor {
  s_page : Z;            (* page selected in the device *)
  s_out : Z;             (* word shifted out during the frame *)
  s_cmd : option Z;      (* first byte of the frame in progress *)
  s_mem : Z -> Z -> Z    (* page, byte address: the byte stored there *)
}.

Definition sensor_word (s : sensor) (a : Z) : Z :=
  s_mem s (s_page s) (Z.lor a 1) * 256 + s_mem s (s_page s) (Z.land a 0xFE).

Definition sensor_shift (s : sensor) (b : Z) : sensor * Z :=
  match s_cmd s with
  | None =>
      (mkSensor (s_page s) (s_out s) (Some b) (s_mem s),
       Z.shiftr (s_out s) 8)
  | Some c =>
      (if Z.testbit c 7 then
         let a := Z.land c 0x7F in
         if a =? 0 then mkSensor b 0 None (s_mem s)
         else mkSensor (s_page s) 0 None
                (fun p x => if (p =? s_page s) && (x =? a) then b
                            else s_mem s p x)
       else mkSensor (s_page s) (sensor_word s c) None (s_mem s),
       Z.land (s_out s) 0xFF)
  end.

(** A sensor on page 0 whose byte at address [a] of page [p] is
    [16 * p + a] (mod 256). *)
Definition sensor0 : sensor :=
  mkSensor 0 0 None (fun p a => u8 (16 * p + a)).

(** A stuck link: every frame answers the two bytes of the same word. *)
Definition stuck_shift (v : Z) (second : bool) (b : Z) : bool * Z :=
  (negb second, if second then u8 v else u8 (Z.shiftr v 8)).

(** A link that plays back a prepared list of bytes. *)
Definition playback_shift (d : list Z) (b : Z) : list Z * Z :=
  (tl d, hd 0 d).

Definition bytes_of_word (v : Z) : list Z := [u8 (Z.shiftr v 8); u8 v].

(** The value [ALM_STS] has on the parts of this family (page 0, address
    0x0C), for the examples. *)
Definition ALM_STS_example : Z := 0x000C.

(** The wiring of the example sketches: [ADIS16490 IMU(10,2,6)]. *)
Definition IMU : machine sensor := construct 10 2 6 sensor0.

(** The register accesses of [setup()] in the example sketch, all on page
    3, and three reads of output registers, all on page 0. *)
Definition setup_ops : list op :=
  [Write FNCTIO_CTRL 0x0C; Write DEC_RATE 0x00; Read FNCTIO_CTRL; Read DEC_RATE].

Definition output_ops : list op :=
  [Read DIAG_STS; Read X_GYRO_OUT; Read TEMP_OUT].

(** ** Unit scaling

    [float] is IEEE 754 binary32 and [double] is binary64, rounding to
    nearest even, as on the 32-bit ARM board the library is written for; the
    operations are those of the specification of floating-point numbers of
    the Standard Library.  In [sensorData * 0.005] the [int16_t] is converted
    to [double], the product is a [double], and the initialisation of
    [float finalData] rounds it to binary32. *)

Definition double_of_int (z : Z) : spec_float :=
  binary_normalize 53 1024 z 0 false.

Definition double_mul : spec_float -> spec_float -> spec_float := SFmul 53 1024.
Definition double_add : spec_float -> spec_float -> spec_float := SFadd 53 1024.

Definition float_of_double (x : spec_float) : spec_float :=
  match x with
  | S754_finite s m e => binary_normalize 24 128 (cond_Zopp s (Zpos m)) e s
  | _ => x
  end.

(** The [double] literals of the five functions: the binary64 numbers
    nearest to 0.5, 0.005, 0.01429, 0.022 and 6.104. *)
Definition lit_0_5     : spec_float := S754_finite false 4503599627370496 (-53).
Definition lit_0_005   : spec_float := S754_finite false 5764607523034235 (-60).
Definition lit_0_01429 : spec_float := S754_finite false 8237624150415922 (-59).
Definition lit_0_022   : spec_float := S754_finite false 6341068275337658 (-58).
Definition lit_6_104   : spec_float := S754_finite false 6872493031367377 (-50).

(** [float ADIS16490::accelScale(int16_t sensorData)] *)
Definition accelScale (sensorData : Z) : spec_float :=
  float_of_double (double_mul (double_of_int (i16 sensorData)) lit_0_5).

(** [float ADIS16490::gyroScale(int16_t sensorData)] *)
Definition gyroScale (sensorData : Z) : spec_float :=
  float_of_double (double_mul (double_of_int (i16 sensorData)) lit_0_005).

(** [float ADIS16490::tempScale(int16_t sensorData)] *)
Definition tempScale (sensorData : Z) : spec_float :=
  float_of_double
    (double_add (double_mul (double_of_int (i16 sensorData)) lit_0_01429)
                (double_of_int 25)).

(** [float ADIS16490::deltaAngleScale(int16_t sensorData)] *)
Definition deltaAngleScale (sensorData : Z) : spec_float :=
  float_of_double (double_mul (double_of_int (i16 sensorData)) lit_0_022).

(** [float ADIS16490::deltaVelocityScale(int16_t sensorData)] *)
Definition deltaVelocityScale (sensorData : Z) : spec_float :=
  float_of_double (double_mul (double_of_int (i16 sensorData)) lit_6_104).

(** The rational number a finite float stands for. *)
Definition SF2Q (f : spec_float) : Q :=
  match f with
  | S754_finite s m e => (inject_Z (cond_Zopp s (Zpos m)) * (2 # 1) ^ e)%Q
  | _ => 0%Q
  end.

Definition is_finite (f : spec_float) : bool :=
  match f with
  | S754_finite _ _ _ | S754_zero _ => true
  | _ => false
  end.

(** Half the distance from a float in canonical form to the next one of its
    exponent. *)
Definition half_ulp (f : spec_float) : Q :=
  match f with
  | S754_finite _ _ e => ((2 # 1) ^ (e - 1))%Q
  | _ => 0%Q
  end.

(** [f] is a binary32 number, not an infinity nor a NaN, within half a unit
    in the last place of [q]. *)
Definition rounds_to (f : spec_float) (q : Q) : Prop :=
  valid_binary 24 128 f = true
  /\ is_finite f = true
  /\ (Qabs (SF2Q f - q) <= half_ulp f)%Q.

(** [f] is a binary32 number equal to [q]. *)
Definition equals (f : spec_float) (q : Q) : Prop :=
  valid_binary 24 128 f = true
  /\ is_finite f = true
  /\ (SF2Q f == q)%Q.

(** [rounds_to f (n / d)] and [equals f (n / d)] decided on integers. *)
Definition rounds_to_b (f : spec_float) (n d : Z) : bool :=
  valid_binary 24 128 f &&
  match f with
  | S754_finite s m e =>
      (e <=? 0)
      && (2 * Z.abs (cond_Zopp s (Zpos m) * d - n * 2 ^ (- e)) <=? d)
  | S754_zero _ => n =? 0
  | _ => false
  end.

Definition equals_b (f : spec_float) (n d : Z) : bool :=
  valid_binary 24 128 f &&
  match f with
  | S754_finite s m e =>
      (e <=? 0) && (cond_Zopp s (Zpos m) * d =? n * 2 ^ (- e))
  | S754_zero _ => n =? 0
  | _ => false
  end.

(** The five functions checked at one input. *)
Definition scaling_check (raw : Z) : bool :=
  equals_b (accelScale raw) raw 2
  && rounds_to_b (gyroScale raw) (raw * 5) 1000
  && rounds_to_b (tempScale raw) (raw * 1429 + 2500000) 100000
  && rounds_to_b (deltaAngleScale raw) (raw * 22) 1000
  && rounds_to_b (deltaVelocityScale raw) (raw * 6104) 1000.

(** A boolean check run over the [n] integers from [lo]. *)
Fixpoint all_from (P : Z -> bool) (lo : Z) (n : nat) : bool :=
  match n with
  | O => true
  | S k => P lo && all_from P (lo + 1) k
  end.

(** ** Calls of the driver in any order *)

Inductive call : Type :=
| CallRead (regAddr : Z)
| CallWrite (regAddr regData : Z)
| CallBurst
| CallReset (ms : Z)
| CallConfig
| CallDelay (ms : Z).   (* the sketch's own [delay(ms)] between two calls *)

Section Calls.
Variable Device : Type.
Variable shift : Device -> Z -> Device * Z.
Variable ALM_STS : Z.

(** One call, its result dropped. *)
Definition invoke (c : call) (m : machine Device) : machine Device :=
  match c with
  | CallRead a => snd (regRead shift a m)
  | CallWrite a d => snd (regWrite shift a d m)
  | CallBurst => snd (sensorRead shift ALM_STS m)
  | CallReset ms => snd (resetDUT ms m)
  | CallConfig => snd (configSPI m)
  | CallDelay ms => snd (delay Device ms m)
  end.

Definition invoke_all (cs : list call) (m : machine Device) : machine Device :=
  fold_left (fun m c => invoke c m) cs m.
End Calls.

Arguments invoke {Device} shift ALM_STS c m.
Arguments invoke_all {Device} shift ALM_STS cs m.

Definition wf_call (c : call) : Prop :=
  match c with
  | CallRead a => is_u16 a
  | CallWrite a d => is_u16 a /\ is_i16 d
  | _ => True
  end.

(** The page a call works on, if it touches a register. *)
Definition call_page (c : call) : option Z :=
  match c with
  | CallRead a | CallWrite a _ => Some (page_of a)
  | CallBurst => Some 0
  | CallReset _ | CallConfig | CallDelay _ => None
  end.

(** How often the page changes along a list of calls, from page [cur]. *)
Fixpoint page_changes (cur : Z) (cs : list call) : nat :=
  match cs with
  | [] => 0
  | c :: rest =>
      match call_page c with
      | Some p => ((if (cur =? p)%Z then 0 else 1) + page_changes p rest)%nat
      | None => page_changes cur rest
      end
  end.

(** The page the last register access of a list of calls was on. *)
Fixpoint last_page (cur : Z) (cs : list call) : Z :=
  match cs with
  | [] => cur
  | c :: rest =>
      match call_page c with
      | Some p => last_page p rest
      | None => last_page cur rest
      end
  end.

(** The frames a call needs once the page is right. *)
Definition access_frames (c : call) : nat :=
  match c with
  | CallRead _ | CallWrite _ _ => 2
  | CallBurst => 10
  | CallReset _ | CallConfig | CallDelay _ => 0
  end.

Fixpoint total_access_frames (cs : list call) : nat :=
  match cs with
  | [] => 0
  | c :: rest => access_frames c + total_access_frames rest
  end.


(** ** The example sketches

    The two sketches keep their state in globals.  What they do to the
    serial port and to the interrupt controller is kept as a log of the
    calls made, with their arguments.  [grabData()] is the handler of the
    data-ready interrupt: a run of it is one call of the function, between
    two statements of the sketch; a handler that interrupts a driver call
    half way is not modelled. *)

Inductive serial_event : Type :=
| Serial_begin (baud : Z)
| Serial_print (s : string)
| Serial_println (s : string)
| Serial_println_hex (v : Z)            (* Serial.println(v, HEX) *)
| Serial_println_int (v : Z)            (* Serial.println(int16_t) *)
| Serial_println_float (f : spec_float) (* Serial.println(float) *)
| AttachInterrupt (pin : Z)             (* attachInterrupt(pin, grabData, RISING) *)
| DetachInterrupt (pin : Z).

(** [ADIS16490_Teensy_Example.ino] *)
Module Example.
Section Sketch.
Variable Device : Type.
Variable shift : Device -> Z -> Device * Z.
Variable ALM_STS : Z.

Notation "x <- c ;; k" := (bind Device c (fun x => k))
  (at level 61, c at next level, right associativity).
Notation "c ;; k" := (bind Device c (fun _ => k))
  (at level 61, right associativity).

Record globals : Type := mkGlobals {
  IMU : machine Device;
  sensorData : list Z;               (* int16_t sensorData[9] *)
  scaledData : list spec_float;      (* float scaledData[7] *)
  MSC : Z;
  DECR : Z;
  printCounter : Z;
  serial : list serial_event
}.

(** The globals when [setup()] starts: [ADIS16490 IMU(10,2,6)] constructed,
    everything else zero. *)
Definition boot (d : Device) : globals :=
  mkGlobals (construct 10 2 6 d) (repeat 0 9) (repeat (S754_zero false) 7)
            0 0 0 [].

(** [void setup()] *)
Definition setup (g : globals) : globals :=
  let r :=
    (configSPI ;;
     delay Device 1000 ;;
     regWrite shift FNCTIO_CTRL 0x0C ;;
     delay Device 20 ;;
     regWrite shift DEC_RATE 0x00 ;;
     delay Device 20 ;;
     msc <- regRead shift FNCTIO_CTRL ;;
     decr <- regRead shift DEC_RATE ;;
     configSPI ;;
     ret Device (msc, decr)) (IMU g) in
  mkGlobals (snd r) (sensorData g) (scaledData g)
            (fst (fst r)) (snd (fst r)) (printCounter g)
            (serial g ++ [Serial_begin 115200; AttachInterrupt 2]).

(** [void grabData()] *)
Definition grabData (g : globals) : globals :=
  let r :=
    (w0 <- regRead shift DIAG_STS ;;
     w1 <- regRead shift ALM_STS ;;
     w2 <- regRead shift X_GYRO_OUT ;;
     w3 <- regRead shift Y_GYRO_OUT ;;
     w4 <- regRead shift Z_GYRO_OUT ;;
     w5 <- regRead shift X_ACCL_OUT ;;
     w6 <- regRead shift Y_ACCL_OUT ;;
     w7 <- regRead shift Z_ACCL_OUT ;;
     w8 <- regRead shift TEMP_OUT ;;
     ret Device [w0; w1; w2; w3; w4; w5; w6; w7; w8]) (IMU g) in
  mkGlobals (snd r) (fst r) (scaledData g) (MSC g) (DECR g)
            (printCounter g) (serial g).

(** [void scaleData()] *)
Definition scaleData (g : globals) : globals :=
  let sd i := nth i (sensorData g) 0 in
  mkGlobals (IMU g) (sensorData g)
    [gyroScale (sd 2%nat); gyroScale (sd 3%nat); gyroScale (sd 4%nat);
     accelScale (sd 5%nat); accelScale (sd 6%nat); accelScale (sd 7%nat);
     tempScale (sd 8%nat)]
    (MSC g) (DECR g) (printCounter g) (serial g).

Definition ESC : ascii := ascii_of_nat 27.

(** The calls on [Serial] of one report, [DEBUG] not being defined. *)
Definition report (g : globals) : list serial_event :=
  let sc i := nth i (scaledData g) (S754_zero false) in
  let sd i := nth i (sensorData g) 0 in
  [Serial_print (String ESC "[2J");
   Serial_print (String ESC "[H");
   Serial_println " ";
   Serial_println "ADIS16490 Teensy Example Program";
   Serial_println "Juan Chong - October 2016";
   Serial_println " ";
   Serial_println "Control Registers";
   Serial_print "FNCTIO_CTRL: ";
   Serial_println_hex (MSC g);
   Serial_print "DEC_RATE: ";
   Serial_println_hex (DECR g);
   Serial_println " ";
   Serial_println "Primary Output Registers";
   Serial_print "XGYRO: ";
   Serial_println_float (sc 0%nat);
   Serial_print "YGYRO: ";
   Serial_println_float (sc 1%nat);
   Serial_print "ZGYRO: ";
   Serial_println_float (sc 2%nat);
   Serial_print "XACCL: ";
   Serial_println_float (sc 3%nat);
   Serial_print "YACCL: ";
   Serial_println_float (sc 4%nat);
   Serial_print "ZACCL: ";
   Serial_println_float (sc 5%nat);
   Serial_println " ";
   Serial_println "Status Registers";
   Serial_print "DIAG_STS: ";
   Serial_println_int (sd 0%nat);
   Serial_print "ALM_STS: ";
   Serial_println_int (sd 1%nat);
   Serial_print "TEMP: ";
   Serial_println_float (sc 6%nat)].

(** [void loop()].  [printCounter] is an [int], 32 bits on the Teensy: it
    stays below 200000 and never wraps. *)
Definition loop (g : globals) : globals :=
  let pc := printCounter g + 1 in
  if pc >=? 200000 then
    let g1 := scaleData g in
    mkGlobals (IMU g1) (sensorData g1) (scaledData g1) (MSC g1) (DECR g1)
      0
      (serial g ++ [DetachInterrupt 2] ++ report g1 ++ [AttachInterrupt 2])
  else
    mkGlobals (IMU g) (sensorData g) (scaledData g) (MSC g) (DECR g)
      pc (serial g).

End Sketch.
End Example.

(** [ADIS16490_Teensy_Datalog_Example.ino] *)
Module Datalog.
Section Sketch.
Variable Device : Type.
Variable shift : Device -> Z -> Device * Z.
Variable ALM_STS : Z.

Notation "x <- c ;; k" := (bind Device c (fun x => k))
  (at level 61, c at next level, right associativity).
Notation "c ;; k" := (bind Device c (fun _ => k))
  (at level 61, right associativity).

Record globals : Type := mkGlobals {
  IMU : machine Device;
  sensorData : option (list Z);   (* int16_t *sensorData, null at first *)
  serial : list serial_event
}.

Definition separator : string := ",".

Definition boot (d : Device) : globals :=
  mkGlobals (construct 10 2 6 d) None [].

(** [void setup()] *)
Definition setup (g : globals) : globals :=
  let r :=
    (configSPI ;;
     delay Device 1000 ;;
     regWrite shift FNCTIO_CTRL 0x0C ;;
     delay Device 20 ;;
     regWrite shift DEC_RATE 0x17 ;;
     delay Device 20 ;;
     configSPI) (IMU g) in
  mkGlobals (snd r) (sensorData g)
            (serial g ++ [Serial_begin 9600; AttachInterrupt 2]).

(** [String(int)]: the decimal digits, with a minus sign if negative. *)
Definition decimal (v : Z) : string := NilZero.string_of_int (Z.to_int v).

(** The [String data] built in [grabData()] from words 2 to 8. *)
Definition line (w : list Z) : string :=
  let sd i := decimal (nth i w 0) in
  (sd 2%nat ++ separator ++ sd 3%nat ++ separator ++ sd 4%nat ++ separator
   ++ sd 5%nat ++ separator ++ sd 6%nat ++ separator ++ sd 7%nat
   ++ separator ++ sd 8%nat)%string.

(** [void grabData()] *)
Definition grabData (g : globals) : globals :=
  let r := sensorRead shift ALM_STS (IMU g) in
  mkGlobals (snd r) (Some (fst r))
            (serial g ++ [Serial_println (line (fst r))]).

End Sketch.
End Datalog.

Arguments Example.IMU {Device} _.
Arguments Example.sensorData {Device} _.
Arguments Example.scaledData {Device} _.
Arguments Example.MSC {Device} _.
Arguments Example.DECR {Device} _.
Arguments Example.printCounter {Device} _.
Arguments Example.serial {Device} _.
Arguments Example.boot {Device} d.
Arguments Example.setup {Device} shift g.
Arguments Example.grabData {Device} shift ALM_STS g.
Arguments Example.scaleData {Device} g.
Arguments Example.report {Device} g.
Arguments Example.loop {Device} g.
Arguments Datalog.IMU {Device} _.
Arguments Datalog.sensorData {Device} _.
Arguments Datalog.serial {Device} _.
Arguments Datalog.boot {Device} d.
Arguments Datalog.setup {Device} shift g.
Arguments Datalog.grabData {Device} shift ALM_STS g.

(** The driver calls of the sketches, in order. *)
Definition example_setup_calls : list call :=
  [CallConfig; CallDelay 1000; CallWrite FNCTIO_CTRL 0x0C; CallDelay 20;
   CallWrite DEC_RATE 0x00; CallDelay 20; CallRead FNCTIO_CTRL;
   CallRead DEC_RATE; CallConfig].

Definition example_grab_calls (ALM_STS : Z) : list call :=
  map CallRead (burst_order ALM_STS).

Definition datalog_setup_calls : list call :=
  [CallConfig; CallDelay 1000; CallWrite FNCTIO_CTRL 0x0C; CallDelay 20;
   CallWrite DEC_RATE 0x17; CallDelay 20; CallConfig].

(** The globals of the example sketch one call of [loop()] before a
    report is due, with nine words in [sensorData]. *)
Definition example_before_report : Example.globals sensor :=
  Example.mkGlobals sensor (construct 10 2 6 sensor0)
    [0; 0; 100; -100; 0; 2; -2; 0; 1000]
    (repeat (S754_zero false) 7) 0x0C 0 199999 [].

(** Reading a datalog line back: the fields between the separators, and
    the number a field spells. *)
Fixpoint fields (s : string) : list string :=
  match s with
  | EmptyString => [EmptyString]
  | String c rest =>
      if Ascii.eqb c "," then EmptyString :: fields rest
      else match fields rest with
           | f :: fs => String c f :: fs
           | [] => [String c EmptyString]
           end
  end.

Definition read_decimal (s : string) : option Z :=
  option_map Z.of_int (NilZero.int_of_string s).

Fixpoint has_separator (s : string) : bool :=
  match s with
  | EmptyString => false
  | String c rest => Ascii.eqb c "," || has_separator rest
  end.

(** ** Integer facts *)

Lemma u8_mod z : u8 z = z mod 256.
Proof. unfold u8. change 0xFF with (Z.ones 8). now rewrite Z.land_ones. Qed.

Lemma u16_mod z : u16 z = z mod 65536.
Proof. unfold u16. change 0xFFFF with (Z.ones 16). now rewrite Z.land_ones. Qed.

Lemma u8_range z : is_u8 (u8 z).
Proof. unfold is_u8. rewrite u8_mod. apply Z.mod_pos_bound. lia. Qed.

Lemma u8_id z : is_u8 z -> u8 z = z.
Proof. unfold is_u8. intros H. rewrite u8_mod. now apply Z.mod_small. Qed.

Lemma u16_id z : is_u16 z -> u16 z = z.
Proof. unfold is_u16. intros H. rewrite u16_mod. now apply Z.mod_small. Qed.

Lemma i16_range z : is_i16 (i16 z).
Proof.
  unfold is_i16, i16. rewrite u16_mod.
  pose proof (Z.mod_pos_bound z 65536 ltac:(lia)).
  destruct (z mod 65536 <? 0x8000) eqn:E.
  - apply Z.ltb_lt in E. lia.
  - apply Z.ltb_ge in E. lia.
Qed.

Lemma i16_id z : is_i16 z -> i16 z = z.
Proof.
  unfold is_i16, i16. intros H. rewrite u16_mod.
  destruct (Z_lt_ge_dec z 0) as [Hn | Hp].
  - replace (z mod 65536) with (z + 65536).
    + destruct (z + 65536 <? 0x8000) eqn:E; [apply Z.ltb_lt in E|]; lia.
    + apply Z.mod_unique with (q := -1); lia.
  - rewrite Z.mod_small by lia.
    destruct (z <? 0x8000) eqn:E; [|apply Z.ltb_ge in E]; lia.
Qed.

(** Bits that do not overlap add up. *)
Lemma lor_shiftl_add h l n :
  0 <= n -> 0 <= l < 2 ^ n -> Z.lor (Z.shiftl h n) l = h * 2 ^ n + l.
Proof.
  intros Hn Hl.
  assert (D : Z.land (Z.shiftl h n) l = 0).
  { apply Z.bits_inj'. intros i Hi.
    rewrite Z.land_spec, Z.bits_0.
    destruct (Z_lt_ge_dec i n) as [Hlt | Hge].
    - rewrite Z.shiftl_spec_low by lia. reflexivity.
    - destruct (Z.eq_dec l 0) as [-> | Hl0].
      + rewrite Z.bits_0. apply andb_false_r.
      + rewrite (Z.bits_above_log2 l i); [apply andb_false_r | lia |].
        apply Z.lt_le_trans with n; [|lia].
        apply Z.log2_lt_pow2; lia. }
  rewrite <- Z.lxor_lor by exact D.
  rewrite <- Z.add_nocarry_lxor by exact D.
  now rewrite Z.shiftl_mul_pow2.
Qed.

Lemma page_of_range addr : is_u16 addr -> is_u8 (page_of addr).
Proof.
  unfold is_u16, is_u8, page_of. intros H.
  rewrite Z.shiftr_div_pow2 by lia. change (2 ^ 8) with 256.
  split; [apply Z.div_pos; lia | apply Z.div_lt_upper_bound; lia].
Qed.

Lemma offset_of_range addr : is_u8 (offset_of addr).
Proof. apply u8_range. Qed.

(** The two bytes received in a frame, joined upper byte first. *)
Lemma word_of_bytes hi lo :
  is_u8 hi -> is_u8 lo -> Z.lor (Z.shiftl hi 8) lo = hi * 256 + lo.
Proof.
  unfold is_u8. intros Hh Hl.
  rewrite lor_shiftl_add by (change (2 ^ 8) with 256; lia).
  reflexivity.
Qed.

Lemma word_of_bytes_u16 hi lo :
  is_u8 hi -> is_u8 lo -> is_u16 (Z.lor (Z.shiftl hi 8) lo).
Proof.
  intros Hh Hl. rewrite (word_of_bytes _ _ Hh Hl).
  unfold is_u8, is_u16 in *. lia.
Qed.

Lemma lor_u8 a b : is_u8 a -> is_u8 b -> is_u8 (Z.lor a b).
Proof.
  intros Ha Hb. rewrite <- (u8_id a Ha), <- (u8_id b Hb).
  unfold u8 at 1 2. rewrite <- Z.land_lor_distr_l. apply u8_range.
Qed.

(** A 16-bit word built from an upper and a lower byte gives them back. *)
Lemma word_split h l :
  is_u8 h -> is_u8 l ->
  let W := u16 (Z.lor (u16 (Z.shiftl h 8)) l) in
  Z.shiftr W 8 = h /\ Z.land W 0xFF = l.
Proof.
  intros Hh Hl W. subst W.
  assert (E : u16 (Z.shiftl h 8) = Z.shiftl h 8).
  { apply u16_id. rewrite Z.shiftl_mul_pow2 by lia.
    unfold is_u8, is_u16 in *. change (2 ^ 8) with 256. lia. }
  rewrite E, (word_of_bytes _ _ Hh Hl).
  rewrite u16_id by (unfold is_u8, is_u16 in *; lia).
  fold (u8 (h * 256 + l)). rewrite u8_mod.
  rewrite Z.shiftr_div_pow2 by lia. change (2 ^ 8) with 256.
  unfold is_u8 in *. split.
  - symmetry. apply Z.div_unique with (r := l); lia.
  - symmetry. apply Z.mod_unique with (q := h); lia.
Qed.

(** Setting bit 8 of the word sets bit 0 of its upper byte. *)
Lemma word_split_high h l :
  is_u8 h -> is_u8 l ->
  let W := u16 (Z.lor (Z.lor (u16 (Z.shiftl h 8)) 0x100) l) in
  Z.shiftr W 8 = Z.lor h 1 /\ Z.land W 0xFF = l.
Proof.
  intros Hh Hl.
  assert (H1 : is_u8 (Z.lor h 1)) by (apply lor_u8; [assumption | unfold is_u8; lia]).
  assert (E : Z.lor (u16 (Z.shiftl h 8)) 0x100 = u16 (Z.shiftl (Z.lor h 1) 8)).
  { rewrite !u16_id.
    - change 0x100 with (Z.shiftl 1 8). now rewrite <- Z.shiftl_lor.
    - rewrite Z.shiftl_mul_pow2 by lia.
      unfold is_u8, is_u16 in *. change (2 ^ 8) with 256. lia.
    - rewrite Z.shiftl_mul_pow2 by lia.
      unfold is_u8, is_u16 in *. change (2 ^ 8) with 256. lia. }
  cbv zeta. rewrite E. apply (word_split _ _ H1 Hl).
Qed.

(** A check that holds over an interval holds at each of its points. *)
Lemma all_from_spec (P : Z -> bool) (n : nat) :
  forall lo, all_from P lo n = true ->
  forall z, lo <= z < lo + Z.of_nat n -> P z = true.
Proof.
  induction n as [|k IH]; intros lo H z Hz.
  - lia.
  - cbn [all_from] in H. apply andb_true_iff in H. destruct H as [H0 Hk].
    destruct (Z.eq_dec z lo) as [-> | Hne]; [exact H0|].
    apply (IH (lo + 1) Hk). lia.
Qed.

Section TransportFacts.

Context {Device : Type}.
Variable shift : Device -> Z -> Device * Z.
Variable ALM_STS : Z.
Implicit Types (m : machine Device) (d : Device).

Lemma exchange_u8 d b1 b2 :
  is_u8 (fst (snd (exchange shift d b1 b2)))
  /\ is_u8 (snd (snd (exchange shift d b1 b2))).
Proof. split; apply u8_range. Qed.

(** The page byte and the offset byte [regRead] and [regWrite] compute are
    the two halves of the address. *)
Lemma page_byte addr :
  is_u16 addr -> u8 (Z.land (Z.shiftr (u16 addr) 8) 0xFF) = page_of addr.
Proof.
  intros H. rewrite (u16_id _ H). fold (u8 (Z.shiftr addr 8)).
  fold (page_of addr). pose proof (page_of_range _ H) as R.
  now rewrite !(u8_id (page_of addr) R).
Qed.

Lemma offset_byte addr :
  is_u16 addr -> u8 (Z.land (u16 addr) 0xFF) = offset_of addr.
Proof.
  intros H. rewrite (u16_id _ H). fold (offset_of addr).
  apply u8_id, offset_of_range.
Qed.

Lemma set_page_same a p : currentPage a = p -> set_page a p = a.
Proof. intros <-. now destruct a. Qed.

Ltac unfold_driver :=
  unfold bind, field, ret, frame, set_currentPage, delayMicroseconds,
    delay, digitalWrite, pinMode, emit;
  cbn [fst snd imu link trace _CS _DR _RST _stall currentPage].

Ltac bytes :=
  repeat match goal with
    | |- context [u8 (offset_of ?a)] =>
        rewrite (u8_id (offset_of a) (offset_of_range a))
    | H : is_u8 ?p |- context [u8 ?p] => rewrite (u8_id p H)
    | |- context [Z.land (snd (snd (exchange ?s ?d ?a ?b))) 255] =>
        change (Z.land (snd (snd (exchange s d a b))) 255)
          with (u8 (snd (snd (exchange s d a b))));
        rewrite (u8_id _ (proj2 (exchange_u8 d a b)))
    end.

(** What one call of [regRead] returns and leaves behind. *)
Lemma regRead_run addr m :
  is_u16 addr ->
  let page := page_of addr in
  let offset := offset_of addr in
  let cs := _CS (imu m) in
  let st := _stall (imu m) in
  let a := exchange shift (selected shift page m) offset 0x00 in
  let r := exchange shift (fst a) 0x00 0x00 in
  regRead shift addr m =
    (i16 (Z.lor (Z.shiftl (fst (snd r)) 8) (snd (snd r))),
     mkMachine (set_page (imu m) page) (fst r)
       (trace m ++ select_events shift page st m ++
        [Frame cs AddressFrame offset 0x00 (fst (snd a)) (snd (snd a));
         DelayMicroseconds st;
         Frame cs DataFrame 0x00 0x00 (fst (snd r)) (snd (snd r));
         DelayMicroseconds st])).
Proof.
  intros H page offset cs st a r. subst a r cs st.
  pose proof (page_of_range _ H) as Hp. fold page in Hp.
  unfold regRead. rewrite (page_byte _ H), (offset_byte _ H).
  fold page offset. unfold select_events, selected. unfold_driver.
  destruct (currentPage (imu m) =? page) eqn:E;
    cbn [negb fst snd imu link trace _CS _DR _RST _stall currentPage].
  - apply Z.eqb_eq in E. rewrite (set_page_same _ _ E).
    unfold offset. bytes. fold offset.
    match goal with
    | |- context [u16 ?w] => rewrite (u16_id w)
    end.
    + repeat rewrite <- app_assoc. reflexivity.
    + apply word_of_bytes_u16; apply exchange_u8.
  - unfold offset. bytes. fold offset.
    match goal with
    | |- context [u16 ?w] => rewrite (u16_id w)
    end.
    + repeat rewrite <- app_assoc. reflexivity.
    + apply word_of_bytes_u16; apply exchange_u8.
Qed.

Lemma write_addr_u8 o : is_u8 (write_addr o).
Proof.
  unfold write_addr. apply lor_u8; [|unfold is_u8; lia].
  change 0x7F with (Z.ones 7). rewrite Z.land_ones by lia.
  pose proof (Z.mod_pos_bound o (2 ^ 7) ltac:(lia)).
  unfold is_u8. change (2 ^ 7) with 128 in *. lia.
Qed.

(** What one call of [regWrite] returns and leaves behind. *)
Lemma regWrite_run addr data m :
  is_u16 addr -> is_i16 data ->
  let page := page_of addr in
  let offset := offset_of addr in
  let cs := _CS (imu m) in
  let st := _stall (imu m) in
  let lo := exchange shift (selected shift page m)
              (write_addr offset) (Z.land data 0xFF) in
  let hi := exchange shift (fst lo)
              (Z.lor (write_addr offset) 1)
              (Z.land (Z.shiftr data 8) 0xFF) in
  regWrite shift addr data m =
    (1,
     mkMachine (set_page (imu m) page) (fst hi)
       (trace m ++ select_events shift page st m ++
        [Frame cs WriteLow (write_addr offset) (Z.land data 0xFF)
               (fst (snd lo)) (snd (snd lo));
         DelayMicroseconds st;
         Frame cs WriteHigh (Z.lor (write_addr offset) 1)
               (Z.land (Z.shiftr data 8) 0xFF)
               (fst (snd hi)) (snd (snd hi));
         DelayMicroseconds st])).
Proof.
  intros H Hd page offset cs st lo hi. subst lo hi cs st.
  pose proof (page_of_range _ H) as Hp. fold page in Hp.
  pose proof (write_addr_u8 offset) as Ha.
  assert (Hlo : is_u8 (Z.land data 0xFF)) by apply u8_range.
  assert (Hhi : is_u8 (Z.land (Z.shiftr data 8) 0xFF)) by apply u8_range.
  assert (Ha1 : is_u8 (Z.lor (write_addr offset) 1))
    by (apply lor_u8; [assumption | unfold is_u8; lia]).
  destruct (word_split _ _ Ha Hlo) as [L1 L2].
  destruct (word_split_high _ _ Ha Hhi) as [H1 H2].
  unfold regWrite. rewrite (page_byte _ H), (offset_byte _ H).
  rewrite (i16_id _ Hd). fold page offset. fold (write_addr offset).
  cbv zeta. rewrite L1, L2, H1, H2.
  unfold select_events, selected. unfold_driver.
  destruct (currentPage (imu m) =? page) eqn:E;
    cbn [negb fst snd imu link trace _CS _DR _RST _stall currentPage].
  - apply Z.eqb_eq in E. rewrite (set_page_same _ _ E).
    rewrite (u8_id _ Ha), (u8_id _ Hlo), (u8_id _ Hhi), (u8_id _ Ha1).
    repeat rewrite <- app_assoc. reflexivity.
  - rewrite (u8_id _ Ha), (u8_id _ Hlo), (u8_id _ Hhi), (u8_id _ Ha1).
    rewrite (u8_id _ Hp).
    repeat rewrite <- app_assoc. reflexivity.
Qed.

(** What one call of [sensorRead] returns and leaves behind. *)
Lemma sensorRead_run m :
  let d0 := selected shift 0x00 m in
  let rs := exchanges shift d0 (burst_tx ALM_STS) in
  sensorRead shift ALM_STS m =
    (map join (tl (snd rs)),
     mkMachine (set_page (imu m) 0x00) (fst rs)
       (trace m ++ select_events shift 0x00 10 m ++
        burst_events (_CS (imu m)) (burst_tx ALM_STS) (snd rs))).
Proof.
  intros d0 rs. subst d0 rs. destruct m as [[cs dr rst st cur] d t].
  unfold sensorRead, select_events, selected, burst_events.
  cbv beta iota zeta delta
    [bind field ret frame set_currentPage delayMicroseconds emit
     imu link trace _CS _DR _RST _stall currentPage set_page].
  destruct (cur =? 0) eqn:E.
  - apply Z.eqb_eq in E. subst cur.
    cbv beta iota zeta delta
      [negb exchanges burst_tx burst_order map flat_map combine tl
       fst snd].
    repeat rewrite <- app_assoc. cbn [app]. reflexivity.
  - cbv beta iota zeta delta
      [negb exchanges burst_tx burst_order map flat_map combine tl
       fst snd].
    repeat rewrite <- app_assoc. cbn [app]. reflexivity.
Qed.

Lemma count_frames_app k t1 t2 :
  count_frames k (t1 ++ t2) = (count_frames k t1 + count_frames k t2)%nat.
Proof. unfold count_frames. now rewrite filter_app, length_app. Qed.

Lemma join_range rx : is_i16 (join rx).
Proof. apply i16_range. Qed.

(** C1: [regRead] on a 16-bit address splits it into page [addr>>8] and
    offset [addr & 0xFF], switches page lazily, sends [(offset, 0x00)] and
    drops what comes back, sends [(0x00, 0x00)] and returns the two bytes
    that come back then, as [(high<<8)|low] read as a signed 16-bit
    two's-complement number. *)
Theorem regRead_spec addr m :
  is_u16 addr ->
  let page := Z.shiftr addr 8 in
  let offset := Z.land addr 0xFF in
  let cs := _CS (imu m) in
  let st := _stall (imu m) in
  let a := exchange shift (selected shift page m) offset 0x00 in
  let r := exchange shift (fst a) 0x00 0x00 in
  let high := fst (snd r) in
  let low := snd (snd r) in
  let w := Z.lor (Z.shiftl high 8) low in
  trace (snd (regRead shift addr m)) =
    trace m ++ select_events shift page st m ++
    [Frame cs AddressFrame offset 0x00 (fst (snd a)) (snd (snd a));
     DelayMicroseconds st;
     Frame cs DataFrame 0x00 0x00 high low;
     DelayMicroseconds st]
  /\ currentPage (imu (snd (regRead shift addr m))) = page
  /\ is_u16 w
  /\ fst (regRead shift addr m) = (if w <? 0x8000 then w else w - 0x10000).
Proof.
  intros H page offset cs st a r high low w.
  pose proof (regRead_run addr m H) as R. cbv zeta in R.
  fold (page_of addr) in page. fold (offset_of addr) in offset.
  fold page offset a r in R. rewrite R.
  cbn [fst snd trace imu currentPage set_page].
  assert (Hw : is_u16 w) by (apply word_of_bytes_u16; apply exchange_u8).
  split; [reflexivity|]. split; [reflexivity|]. split; [exact Hw|].
  fold high low w. unfold i16. now rewrite (u16_id _ Hw).
Qed.

Lemma select_events_lazy page st m access m' :
  count_frames PageSelect access = 0%nat ->
  currentPage (imu m') = page ->
  trace m' = trace m ++ select_events shift page st m ++ access ->
  lazily_selects page m m'.
Proof.
  intros Hc Hp Ht. split; [exact Hp|]. exists access. split; [exact Hc|].
  unfold select_events in Ht.
  destruct (currentPage (imu m) =? page) eqn:E.
  - left. apply Z.eqb_eq in E. now split.
  - right. apply Z.eqb_neq in E. split; [exact E|].
    eexists _, _, _. rewrite Ht. reflexivity.
Qed.

(** C2: the page cache.  [currentPage] is 0 after construction; [regRead],
    [regWrite] and [sensorRead] each issue the frame [(0x80, page)] first,
    and set [currentPage], exactly when [currentPage] is not the page of
    the register they access, issue no other page-select frame, and leave
    [currentPage] on that page; the other methods leave it alone. *)
Theorem page_cache_invariant CS DR RST d m addr data ms :
  is_u16 addr -> is_i16 data ->
  currentPage (imu (construct CS DR RST d)) = 0
  /\ lazily_selects (page_of addr) m (snd (regRead shift addr m))
  /\ lazily_selects (page_of addr) m (snd (regWrite shift addr data m))
  /\ lazily_selects 0 m (snd (sensorRead shift ALM_STS m))
  /\ currentPage (imu (snd (resetDUT ms m))) = currentPage (imu m)
  /\ currentPage (imu (snd (configSPI m))) = currentPage (imu m).
Proof.
  intros H Hd.
  split; [reflexivity|]. split; [|split; [|split; [|split; reflexivity]]].
  - pose proof (regRead_run addr m H) as R. cbv zeta in R. rewrite R.
    eapply select_events_lazy with (st := _stall (imu m));
      [| reflexivity | reflexivity].
    reflexivity.
  - pose proof (regWrite_run addr data m H Hd) as R. cbv zeta in R.
    rewrite R.
    eapply select_events_lazy with (st := _stall (imu m));
      [| reflexivity | reflexivity].
    reflexivity.
  - pose proof (sensorRead_run m) as R. cbv zeta in R. rewrite R.
    eapply select_events_lazy with (st := 10);
      [| reflexivity | reflexivity].
    reflexivity.
Qed.

Lemma exchanges_length d txs :
  length (snd (exchanges shift d txs)) = length txs.
Proof.
  revert d. induction txs as [|[b1 b2] rest IH]; intros d; cbn [exchanges].
  - reflexivity.
  - cbn [snd length]. now rewrite IH.
Qed.

(** Every byte a device answers is a byte. *)
Lemma exchanges_u8 d txs :
  Forall (fun r => is_u8 (fst r) /\ is_u8 (snd r))
         (snd (exchanges shift d txs)).
Proof.
  revert d. induction txs as [|[b1 b2] rest IH]; intros d; cbn [exchanges].
  - constructor.
  - cbn [snd]. constructor; [apply exchange_u8 | apply IH].
Qed.

(** The word [sensorRead] makes of two received bytes, written out. *)
Lemma join_word rx :
  is_u8 (fst rx) /\ is_u8 (snd rx) ->
  join rx =
    (let w := Z.lor (Z.shiftl (fst rx) 8) (snd rx) in
     if w <? 0x8000 then w else w - 0x10000).
Proof.
  intros [Hh Hl]. unfold join. fold (u8 (snd rx)). rewrite (u8_id _ Hl).
  unfold i16. now rewrite (u16_id _ (word_of_bytes_u16 _ _ Hh Hl)).
Qed.

(** C4: whatever [currentPage] was, [sensorRead] returns nine signed
    16-bit words; the frames of the burst ask for DIAG_STS, ALM_STS, the
    gyroscope X, Y, Z, the accelerometer X, Y, Z and the temperature, in
    that order, and word [i] of the result is made of the two bytes that
    came back in the frame after the one that asked for register [i], as
    [(high<<8)|low] read as a signed 16-bit two's-complement number; the
    burst comes after the page switch to page 0, which is issued exactly
    when [currentPage] is not 0. *)
Theorem sensorRead_spec m :
  let cs := _CS (imu m) in
  let txs := burst_tx ALM_STS in
  let rs := snd (exchanges shift (selected shift 0x00 m) txs) in
  let sel := snd (exchange shift (link m) 0x80 0x00) in
  let res := fst (sensorRead shift ALM_STS m) in
  let word i :=
    let high := fst (nth i rs (0, 0)) in
    let low := snd (nth i rs (0, 0)) in
    let w := Z.lor (Z.shiftl high 8) low in
    if w <? 0x8000 then w else w - 0x10000 in
  length res = 9%nat
  /\ Forall is_i16 res
  /\ map fst txs =
       [DIAG_STS; ALM_STS; X_GYRO_OUT; Y_GYRO_OUT; Z_GYRO_OUT;
        X_ACCL_OUT; Y_ACCL_OUT; Z_ACCL_OUT; TEMP_OUT; 0x00]
  /\ length rs = 10%nat
  /\ Forall (fun r => is_u8 (fst r) /\ is_u8 (snd r)) rs
  /\ res = [word 1%nat; word 2%nat; word 3%nat; word 4%nat; word 5%nat;
            word 6%nat; word 7%nat; word 8%nat; word 9%nat]
  /\ trace (snd (sensorRead shift ALM_STS m)) =
       trace m ++
       (if currentPage (imu m) =? 0x00 then []
        else [Frame cs PageSelect 0x80 0x00 (fst sel) (snd sel);
              DelayMicroseconds 10]) ++
       burst_events cs txs rs
  /\ count_frames PageSelect (burst_events cs txs rs) = 0%nat
  /\ currentPage (imu (snd (sensorRead shift ALM_STS m))) = 0x00.
Proof.
  intros cs txs rs sel res word.
  pose proof (sensorRead_run m) as R. cbv zeta in R.
  subst res. rewrite R. cbn [fst snd trace imu currentPage set_page].
  fold txs rs.
  assert (L : length rs = 10%nat) by (subst rs; now rewrite exchanges_length).
  assert (U : Forall (fun r => is_u8 (fst r) /\ is_u8 (snd r)) rs)
    by (subst rs; apply exchanges_u8).
  subst word.
  destruct rs as [|r0 [|r1 [|r2 [|r3 [|r4 [|r5 [|r6 [|r7 [|r8 [|r9 [|]]]]]]]]]]];
    try discriminate L.
  split; [reflexivity|]. split.
  { cbn [tl map]. repeat constructor; apply join_range. }
  split; [reflexivity|]. split; [reflexivity|]. split; [exact U|].
  split.
  { cbn [tl map nth].
    repeat (apply Forall_cons_iff in U; destruct U as [? U]).
    rewrite !join_word by assumption. reflexivity. }
  split; [reflexivity|]. split; reflexivity.
Qed.

(** C6: after a read of [a1], a read of [a2] on another page issues the
    page-select frame for the page of [a2] and then the address frame of
    [a2]; a second read of [a1] issues its address frame and its data
    frame and no page-select frame, so that in two reads of [a1] a
    page-select frame can only come in front of the first. *)
Theorem read_then_read a1 a2 m :
  is_u16 a1 -> is_u16 a2 ->
  let cs := _CS (imu m) in
  let st := _stall (imu m) in
  let m1 := snd (regRead shift a1 m) in
  (page_of a1 <> page_of a2 ->
     exists r1 r2 r3 r4 rest,
       trace (snd (regRead shift a2 m1)) =
         trace m1 ++
         Frame cs PageSelect 0x80 (page_of a2) r1 r2 ::
         DelayMicroseconds st ::
         Frame cs AddressFrame (offset_of a2) 0x00 r3 r4 :: rest)
  /\ (exists r1 r2 r3 r4,
       trace (snd (regRead shift a1 m1)) =
         trace m1 ++
         [Frame cs AddressFrame (offset_of a1) 0x00 r1 r2;
          DelayMicroseconds st;
          Frame cs DataFrame 0x00 0x00 r3 r4;
          DelayMicroseconds st])
  /\ (exists sel r1 r2 r3 r4,
       trace m1 =
         trace m ++ sel ++
         [Frame cs AddressFrame (offset_of a1) 0x00 r1 r2;
          DelayMicroseconds st;
          Frame cs DataFrame 0x00 0x00 r3 r4;
          DelayMicroseconds st]
       /\ (sel = [] \/
           exists r5 r6,
             sel = [Frame cs PageSelect 0x80 (page_of a1) r5 r6;
                    DelayMicroseconds st])).
Proof.
  intros H1 H2 cs st m1.
  pose proof (regRead_run a1 m H1) as R1. cbv zeta in R1.
  assert (P1 : currentPage (imu m1) = page_of a1)
    by (subst m1; now rewrite R1).
  assert (C1 : _CS (imu m1) = cs) by (subst m1; now rewrite R1).
  assert (S1 : _stall (imu m1) = st) by (subst m1; now rewrite R1).
  split; [|split].
  - intros Hne.
    pose proof (regRead_run a2 m1 H2) as R2. cbv zeta in R2. rewrite R2.
    cbn [snd trace]. unfold select_events. rewrite P1, C1, S1.
    destruct (page_of a1 =? page_of a2) eqn:E;
      [apply Z.eqb_eq in E; contradiction|].
    eexists _, _, _, _, _. reflexivity.
  - pose proof (regRead_run a1 m1 H1) as R2. cbv zeta in R2. rewrite R2.
    cbn [snd trace]. unfold select_events. rewrite P1, C1, S1.
    rewrite Z.eqb_refl. eexists _, _, _, _. reflexivity.
  - subst m1. rewrite R1. cbn [snd trace].
    eexists _, _, _, _, _. split; [reflexivity|].
    unfold select_events. fold cs st.
    destruct (currentPage (imu m) =? page_of a1); [now left|right].
    eexists _, _. reflexivity.
Qed.

(** C7, as the code has it: [sensorRead] issues ten burst frames, not
    counting the page-select frame: one that only clocks out the first
    address, eight that clock out the next address while the previous
    register comes back, and a last one of zeros in which the ninth
    register comes back. *)
Theorem sensorRead_burst_frames m :
  let txs := burst_tx ALM_STS in
  let rs := snd (exchanges shift (selected shift 0x00 m) txs) in
  let t' := trace (snd (sensorRead shift ALM_STS m)) in
  count_frames BurstFrame t' = (count_frames BurstFrame (trace m) + 10)%nat
  /\ (exists sel,
        t' = trace m ++ sel ++ burst_events (_CS (imu m)) txs rs
        /\ count_frames BurstFrame sel = 0%nat)
  /\ wire (burst_events (_CS (imu m)) txs rs) =
       [(BurstFrame, 0x0A, 0x00); (BurstFrame, u8 ALM_STS, 0x00);
        (BurstFrame, 0x12, 0x00); (BurstFrame, 0x16, 0x00);
        (BurstFrame, 0x1A, 0x00); (BurstFrame, 0x1E, 0x00);
        (BurstFrame, 0x22, 0x00); (BurstFrame, 0x26, 0x00);
        (BurstFrame, 0x0E, 0x00); (BurstFrame, 0x00, 0x00)]
  /\ length rs = 10%nat
  /\ fst (sensorRead shift ALM_STS m) = map join (tl rs).
Proof.
  intros txs rs t'.
  pose proof (sensorRead_run m) as R. cbv zeta in R.
  subst t'. rewrite R. cbn [fst snd trace]. fold txs rs.
  assert (L : length rs = 10%nat) by (subst rs; now rewrite exchanges_length).
  destruct rs as [|r0 [|r1 [|r2 [|r3 [|r4 [|r5 [|r6 [|r7 [|r8 [|r9 [|]]]]]]]]]]];
    try discriminate L.
  split.
  { rewrite !count_frames_app. unfold select_events.
    destruct (currentPage (imu m) =? 0); reflexivity. }
  split.
  { eexists. split; [reflexivity|]. unfold select_events.
    destruct (currentPage (imu m) =? 0); reflexivity. }
  split; [reflexivity|]. split; reflexivity.
Qed.

(** [resetDUT]: the reset pin is low for 500 microseconds, whatever [ms];
    the wait of [ms] milliseconds comes once the pin is high again. *)
Lemma resetDUT_run ms m :
  resetDUT ms m =
    (1, mkMachine (imu m) (link m)
          (trace m ++ [DigitalWrite (_RST (imu m)) LOW;
                       DelayMicroseconds 500;
                       DigitalWrite (_RST (imu m)) HIGH;
                       Delay (u8 ms)])).
Proof.
  unfold resetDUT. unfold_driver. repeat rewrite <- app_assoc. reflexivity.
Qed.

(** C10, as the code has it: [resetDUT] drives the reset pin low, waits
    500 microseconds whatever [ms] is, drives the pin high, and only then
    waits [ms] milliseconds; it returns 1. *)
Theorem resetDUT_pulse ms m :
  fst (resetDUT ms m) = 1
  /\ trace (snd (resetDUT ms m)) =
       trace m ++ [DigitalWrite (_RST (imu m)) LOW;
                   DelayMicroseconds 500;
                   DigitalWrite (_RST (imu m)) HIGH;
                   Delay (u8 ms)].
Proof. rewrite resetDUT_run. split; reflexivity. Qed.

(** *** The frames of [regWrite] *)

(** C3, at an odd in-page offset: [regWrite(0x0307, 0x1234)] sends the
    low byte to [0x80|0x07] and then the high byte to [0x80|0x07] again,
    not to [0x80|(0x07+1) = 0x88]: the address of the second frame is
    made by setting bit 0, not by adding one. *)
Theorem regWrite_odd_offset d :
  wire (trace (snd (regWrite shift 0x0307 0x1234 (construct 10 2 6 d)))) =
    [(PageSelect, 0x80, 0x03); (WriteLow, 0x87, 0x34); (WriteHigh, 0x87, 0x12)]
  /\ Z.lor 0x80 (offset_of 0x0307 + 1) = 0x88.
Proof.
  rewrite regWrite_run by (unfold is_u16, is_i16; lia).
  split; reflexivity.
Qed.

(** The setup of the example sketches: [regWrite(FNCTIO_CTRL, 0x0C)]. *)
Lemma regWrite_FNCTIO_CTRL d :
  wire (trace (snd (regWrite shift FNCTIO_CTRL 0x0C (construct 10 2 6 d)))) =
    [(PageSelect, 0x80, 0x03); (WriteLow, 0x86, 0x0C); (WriteHigh, 0x87, 0x00)].
Proof.
  rewrite regWrite_run by (unfold is_u16, is_i16, FNCTIO_CTRL; lia).
  reflexivity.
Qed.

(** At an even offset the two frames go to [0x80|offset] and
    [0x80|(offset+1)]. *)
Lemma regWrite_even_offset addr data m :
  is_u16 addr -> is_i16 data -> Z.even (offset_of addr) = true ->
  let page := page_of addr in
  let offset := offset_of addr in
  let cs := _CS (imu m) in
  let st := _stall (imu m) in
  exists r1 r2 r3 r4,
    trace (snd (regWrite shift addr data m)) =
      trace m ++ select_events shift page st m ++
      [Frame cs WriteLow (Z.lor 0x80 offset) (Z.land data 0xFF) r1 r2;
       DelayMicroseconds st;
       Frame cs WriteHigh (Z.lor 0x80 (offset + 1))
             (Z.land (Z.shiftr data 8) 0xFF) r3 r4;
       DelayMicroseconds st].
Proof.
  intros H Hd He page offset cs st.
  pose proof (regWrite_run addr data m H Hd) as R. cbv zeta in R.
  rewrite R. cbn [snd trace]. fold page offset cs st.
  assert (E : write_addr offset = Z.lor 0x80 offset
              /\ Z.lor (write_addr offset) 1 = Z.lor 0x80 (offset + 1)).
  { pose proof (offset_of_range addr) as Ho. fold offset in Ho, He.
    assert (G : forall o, 0 <= o < 0 + Z.of_nat 256 ->
              implb (Z.even o)
                ((write_addr o =? Z.lor 0x80 o)
                 && (Z.lor (write_addr o) 1 =? Z.lor 0x80 (o + 1))) = true).
    { apply all_from_spec. vm_compute. reflexivity. }
    specialize (G offset Ho). rewrite He in G. cbn [implb] in G.
    apply andb_true_iff in G. destruct G as [G1 G2].
    apply Z.eqb_eq in G1, G2. now split. }
  destruct E as [E1 E2]. rewrite E2, E1.
  eexists _, _, _, _. reflexivity.
Qed.

(** *** Sequences on one page *)

Lemma perform_selects o m :
  wf_op o ->
  let m' := snd (perform shift o m) in
  currentPage (imu m') = page_of (op_addr o)
  /\ count_frames PageSelect (trace m') =
       (count_frames PageSelect (trace m)
        + if (currentPage (imu m) =? page_of (op_addr o))%Z then 0 else 1)%nat.
Proof.
  intros Hwf. destruct o as [a | a dt]; cbn [perform op_addr wf_op] in *.
  - pose proof (regRead_run a m Hwf) as R. cbv zeta in R. rewrite R.
    cbn [snd imu trace set_page currentPage]. split; [reflexivity|].
    rewrite !count_frames_app. unfold select_events.
    destruct (currentPage (imu m) =? page_of a); reflexivity.
  - destruct Hwf as [Ha Hd].
    pose proof (regWrite_run a dt m Ha Hd) as R. cbv zeta in R. rewrite R.
    cbn [snd imu trace set_page currentPage]. split; [reflexivity|].
    rewrite !count_frames_app. unfold select_events.
    destruct (currentPage (imu m) =? page_of a); reflexivity.
Qed.

Lemma run_cons o rest m :
  snd (run shift (o :: rest) m) = snd (run shift rest (snd (perform shift o m))).
Proof.
  cbn [run]. unfold bind. now destruct (perform shift o m).
Qed.

Lemma run_on_page p ops m :
  Forall wf_op ops ->
  Forall (fun o => page_of (op_addr o) = p) ops ->
  currentPage (imu m) = p ->
  count_frames PageSelect (trace (snd (run shift ops m))) =
    count_frames PageSelect (trace m).
Proof.
  intros Hwf. revert m. induction Hwf as [|o rest Ho _ IH]; intros m Hp Hc.
  - reflexivity.
  - pose proof (Forall_inv Hp) as Hpo. cbv beta in Hpo.
    pose proof (Forall_inv_tail Hp) as Hprest.
    rewrite run_cons.
    destruct (perform_selects o m Ho) as [C N].
    rewrite IH; [| assumption | now rewrite C].
    rewrite N, Hc, Hpo, Z.eqb_refl. lia.
Qed.

(** C5, as the code has it: operations that stay on one page [p], from a
    freshly constructed object, issue no page-select frame at all when [p]
    is 0 (or when there is no operation), and exactly one otherwise,
    however many operations there are. *)
Theorem same_page_select_count CS DR RST d p ops :
  Forall wf_op ops ->
  Forall (fun o => page_of (op_addr o) = p) ops ->
  let t := trace (snd (run shift ops (construct CS DR RST d))) in
  (p = 0 -> count_frames PageSelect t = 0%nat)
  /\ (ops = [] -> count_frames PageSelect t = 0%nat)
  /\ (p <> 0 -> ops <> [] -> count_frames PageSelect t = 1%nat).
Proof.
  intros Hwf Hp t. subst t.
  destruct ops as [|o rest].
  - repeat split; try reflexivity. intros _ Hn. now elim Hn.
  - pose proof (Forall_inv Hwf) as Ho.
    pose proof (Forall_inv_tail Hwf) as Hrest.
    pose proof (Forall_inv Hp) as Hpo. cbv beta in Hpo.
    pose proof (Forall_inv_tail Hp) as Hprest.
    rewrite run_cons.
    destruct (perform_selects o (construct CS DR RST d) Ho) as [C N].
    rewrite (run_on_page p); [| assumption.. | now rewrite C].
    rewrite N. change (currentPage (imu (construct CS DR RST d))) with 0.
    change (count_frames PageSelect (trace (construct CS DR RST d))) with 0%nat.
    repeat split.
    + intros E. rewrite Hpo, E. reflexivity.
    + discriminate.
    + intros Hne _. rewrite Hpo. destruct (0 =? p) eqn:E;
        [apply Z.eqb_eq in E; congruence | reflexivity].
Qed.

End TransportFacts.

(** ** Outcomes of the transport *)

(** The two bytes of a 16-bit word, joined again. *)
Lemma i16_of_bytes v :
  is_i16 v -> i16 (Z.lor (Z.shiftl (u8 (Z.shiftr v 8)) 8) (u8 v)) = v.
Proof.
  intros H.
  rewrite word_of_bytes by apply u8_range.
  rewrite !u8_mod, Z.shiftr_div_pow2 by lia. change (2 ^ 8) with 256.
  replace ((v / 256) mod 256 * 256 + v mod 256) with (v mod (256 * 256))
    by (rewrite Z.rem_mul_r by lia; lia).
  change (256 * 256) with 65536.
  rewrite <- (i16_id v H) at 2.
  unfold i16. rewrite !u16_mod. now rewrite Z.mod_mod by lia.
Qed.

Lemma join_bytes v :
  is_i16 v -> join (u8 (u8 (Z.shiftr v 8)), u8 (u8 v)) = v.
Proof.
  intros H. unfold join. cbn [fst snd].
  fold (u8 (u8 (u8 v))).
  rewrite !(u8_id (u8 _)) by apply u8_range.
  now apply i16_of_bytes.
Qed.

(** C9: [regWrite] returns 1 whatever the address, the data and the answers
    of the device, and issues no frame that reads anything back; the
    operations are total functions with no error result, and no value of
    [regRead] or [sensorRead] is set apart to signal a failure: every
    16-bit value comes out of [regRead], and every list of nine out of
    [sensorRead], on a suitable link. *)
Theorem no_failure_reporting
    (Device : Type) (shift : Device -> Z -> Device * Z) (m : machine Device)
    (addr data v ALM_STS CS DR RST : Z) (vs : list Z) :
  is_u16 addr -> is_i16 data -> is_i16 v ->
  length vs = 9%nat -> Forall is_i16 vs ->
  fst (regWrite shift addr data m) = 1
  /\ (exists emitted,
        trace (snd (regWrite shift addr data m)) = trace m ++ emitted
        /\ count_frames AddressFrame emitted = 0%nat
        /\ count_frames DataFrame emitted = 0%nat
        /\ count_frames BurstFrame emitted = 0%nat)
  /\ fst (regRead (stuck_shift v) addr (construct CS DR RST false)) = v
  /\ fst (sensorRead playback_shift ALM_STS
            (construct CS DR RST (0 :: 0 :: flat_map bytes_of_word vs))) = vs.
Proof.
  intros Ha Hd Hv Hl Hvs.
  pose proof (regWrite_run shift addr data m Ha Hd) as W. cbv zeta in W.
  split; [now rewrite W|]. split.
  { rewrite W. cbn [snd trace]. eexists. split; [reflexivity|].
    rewrite !count_frames_app. unfold select_events.
    destruct (currentPage (imu m) =? page_of addr); repeat split; reflexivity. }
  split.
  { pose proof (regRead_run (stuck_shift v) addr (construct CS DR RST false) Ha)
      as R. cbv zeta in R. rewrite R. cbn [fst].
    unfold selected.
    change (link (construct CS DR RST false)) with false.
    destruct (currentPage (imu (construct CS DR RST false)) =? page_of addr);
      cbv beta iota zeta delta [exchange transfer stuck_shift fst snd negb];
      rewrite !(u8_id (u8 _)) by apply u8_range;
      apply (i16_of_bytes v Hv). }
  pose proof (sensorRead_run playback_shift ALM_STS
                (construct CS DR RST (0 :: 0 :: flat_map bytes_of_word vs))) as R.
  cbv zeta in R. rewrite R. cbn [fst].
  destruct vs as [|v0 [|v1 [|v2 [|v3 [|v4 [|v5 [|v6 [|v7 [|v8 [|]]]]]]]]]];
    try discriminate Hl.
  repeat match goal with
         | H : Forall _ (_ :: _) |- _ =>
             let Hx := fresh "Hx" in
             pose proof (Forall_inv H) as Hx;
             apply Forall_inv_tail in H
         end.
  unfold selected.
  change (currentPage (imu (construct CS DR RST
            (0 :: 0 :: flat_map bytes_of_word [v0; v1; v2; v3; v4; v5; v6; v7; v8]))))
    with 0.
  cbn [Z.eqb link construct].
  change (link (construct CS DR RST
            (0 :: 0 :: flat_map bytes_of_word [v0; v1; v2; v3; v4; v5; v6; v7; v8])))
    with (0 :: 0 :: flat_map bytes_of_word [v0; v1; v2; v3; v4; v5; v6; v7; v8]).
  cbv beta iota zeta delta
    [exchanges exchange transfer playback_shift burst_tx burst_order map app
     flat_map bytes_of_word tl hd fst snd].
  rewrite !join_bytes by assumption. reflexivity.
Qed.

(** ** Unit scaling *)

Lemma two_power_nonpos e :
  e <= 0 -> ((2 # 1) ^ e == / inject_Z (2 ^ (- e)))%Q.
Proof.
  intros H. replace e with (- - e) at 1 by lia.
  rewrite Qpower_opp. rewrite Zpower_Qpower by lia. reflexivity.
Qed.

(** The bound of [rounds_to_b], read in the rationals. *)
Lemma half_ulp_bound M e n d :
  e <= 0 -> 0 < d ->
  2 * Z.abs (M * d - n * 2 ^ (- e)) <= d ->
  (Qabs (inject_Z M * (2 # 1) ^ e - inject_Z n / inject_Z d)
   <= (2 # 1) ^ (e - 1))%Q.
Proof.
  intros He Hd H.
  rewrite (two_power_nonpos e He), (two_power_nonpos (e - 1)) by lia.
  replace (- (e - 1)) with (- e + 1) by lia.
  rewrite Z.pow_add_r by lia. change (2 ^ 1) with 2.
  assert (HP : 0 < 2 ^ (- e)) by (apply Z.pow_pos_nonneg; lia).
  destruct (2 ^ (- e)) as [|P|P]; try lia.
  destruct d as [|D|D]; try lia.
  unfold Qle, Qabs, Qminus, Qplus, Qdiv, Qmult, Qinv, Qopp, inject_Z.
  cbn [Qnum Qden Z.mul Pos.mul].
  rewrite !Pos2Z.inj_mul.
  replace (M * 1 * Z.pos D + - (n * 1) * Z.pos P)
    with (M * Z.pos D - n * Z.pos P) by ring.
  nia.
Qed.

Lemma exact_value M e n d :
  e <= 0 -> 0 < d ->
  M * d = n * 2 ^ (- e) ->
  (inject_Z M * (2 # 1) ^ e == inject_Z n / inject_Z d)%Q.
Proof.
  intros He Hd H.
  rewrite (two_power_nonpos e He).
  assert (HP : 0 < 2 ^ (- e)) by (apply Z.pow_pos_nonneg; lia).
  destruct (2 ^ (- e)) as [|P|P]; try lia.
  destruct d as [|D|D]; try lia.
  unfold Qeq, Qdiv, Qmult, Qinv, inject_Z.
  cbn [Qnum Qden Z.mul Pos.mul].
  rewrite ?Pos2Z.inj_mul. nia.
Qed.

Lemma rounds_to_b_sound f n d :
  0 < d -> rounds_to_b f n d = true ->
  rounds_to f (inject_Z n / inject_Z d).
Proof.
  intros Hd H. unfold rounds_to_b in H.
  apply andb_true_iff in H. destruct H as [Hv H].
  destruct f as [s | s | | s m e]; try discriminate H.
  - apply Z.eqb_eq in H. subst n.
    split; [assumption|]. split; [reflexivity|]. cbn [SF2Q half_ulp].
    unfold Qle, Qabs, Qminus, Qplus, Qdiv, Qmult, Qinv, Qopp, inject_Z.
    cbn. lia.
  - apply andb_true_iff in H. destruct H as [He Hb].
    apply Z.leb_le in He, Hb.
    split; [assumption|]. split; [reflexivity|]. cbn [SF2Q half_ulp].
    now apply half_ulp_bound.
Qed.

Lemma equals_b_sound f n d :
  0 < d -> equals_b f n d = true ->
  equals f (inject_Z n / inject_Z d).
Proof.
  intros Hd H. unfold equals_b in H.
  apply andb_true_iff in H. destruct H as [Hv H].
  destruct f as [s | s | | s m e]; try discriminate H.
  - apply Z.eqb_eq in H. subst n.
    split; [assumption|]. split; [reflexivity|]. cbn [SF2Q].
    unfold Qeq, Qdiv, Qmult, Qinv, inject_Z. cbn. reflexivity.
  - apply andb_true_iff in H. destruct H as [He Hb].
    apply Z.leb_le in He. apply Z.eqb_eq in Hb.
    split; [assumption|]. split; [reflexivity|]. cbn [SF2Q].
    now apply exact_value.
Qed.

Lemma rounds_to_Qeq f q q' : (q == q')%Q -> rounds_to f q -> rounds_to f q'.
Proof.
  intros E (Hv & Hf & Hq). split; [assumption|]. split; [assumption|].
  now rewrite <- E.
Qed.

Lemma equals_Qeq f q q' : (q == q')%Q -> equals f q -> equals f q'.
Proof.
  intros E (Hv & Hf & Hq). split; [assumption|]. split; [assumption|].
  now rewrite <- E.
Qed.

(** The literals are the correctly rounded quotients of their decimal
    numerator and denominator. *)
Lemma literals_nearest :
  lit_0_5 = SFdiv 53 1024 (double_of_int 5) (double_of_int 10)
  /\ lit_0_005 = SFdiv 53 1024 (double_of_int 5) (double_of_int 1000)
  /\ lit_0_01429 = SFdiv 53 1024 (double_of_int 1429) (double_of_int 100000)
  /\ lit_0_022 = SFdiv 53 1024 (double_of_int 22) (double_of_int 1000)
  /\ lit_6_104 = SFdiv 53 1024 (double_of_int 6104) (double_of_int 1000).
Proof. repeat split; vm_compute; reflexivity. Qed.

(** Every [int16_t] input passes the check. *)
Lemma scaling_check_all :
  all_from scaling_check (-32768) (Pos.to_nat 65536) = true.
Proof. vm_cast_no_check (@eq_refl bool true). Qed.

(** C8: the five scaling functions are functions of their argument alone;
    on every [int16_t] input each returns a finite binary32 number, the
    value of its C++ expression: [accelScale] is exactly [raw * 0.5], and
    [gyroScale], [tempScale], [deltaAngleScale] and [deltaVelocityScale] are
    [raw * 0.005], [raw * 0.01429 + 25], [raw * 0.022] and [raw * 6.104] to
    within half a unit in the last place of the [float]; [gyroScale(100)]
    is 0.5, [gyroScale(-100)] is -0.5 and [tempScale(0)] is 25. *)
Theorem scaling_spec raw :
  is_i16 raw ->
  (accelScale raw = float_of_double (double_mul (double_of_int raw) lit_0_5)
   /\ gyroScale raw = float_of_double (double_mul (double_of_int raw) lit_0_005)
   /\ tempScale raw =
        float_of_double (double_add (double_mul (double_of_int raw) lit_0_01429)
                                    (double_of_int 25))
   /\ deltaAngleScale raw =
        float_of_double (double_mul (double_of_int raw) lit_0_022)
   /\ deltaVelocityScale raw =
        float_of_double (double_mul (double_of_int raw) lit_6_104))
  /\ equals (accelScale raw) (inject_Z raw * 0.5)
  /\ rounds_to (gyroScale raw) (inject_Z raw * 0.005)
  /\ rounds_to (tempScale raw) (inject_Z raw * 0.01429 + 25)
  /\ rounds_to (deltaAngleScale raw) (inject_Z raw * 0.022)
  /\ rounds_to (deltaVelocityScale raw) (inject_Z raw * 6.104)
  /\ equals (gyroScale 100) 0.5
  /\ equals (gyroScale (-100)) (-0.5)
  /\ equals (tempScale 0) 25.
Proof.
  intros H.
  split.
  { unfold accelScale, gyroScale, tempScale, deltaAngleScale,
      deltaVelocityScale. rewrite (i16_id raw H). repeat split. }
  pose proof (all_from_spec scaling_check _ _ scaling_check_all raw) as C.
  assert (R : -32768 <= raw < -32768 + Z.of_nat (Pos.to_nat 65536))
    by (unfold is_i16 in H; rewrite positive_nat_Z; lia).
  specialize (C R). unfold scaling_check in C.
  do 4 (apply andb_true_iff in C; destruct C as [C ?]).
  split.
  { eapply equals_Qeq.
    2:{ apply equals_b_sound; [|eassumption]. lia. }
    unfold Qeq, Qdiv, Qmult, Qinv, inject_Z; cbn; lia. }
  split.
  { eapply rounds_to_Qeq.
    2:{ apply rounds_to_b_sound; [|eassumption]. lia. }
    unfold Qeq, Qdiv, Qmult, Qinv, inject_Z; cbn; lia. }
  split.
  { eapply rounds_to_Qeq.
    2:{ apply rounds_to_b_sound; [|eassumption]. lia. }
    unfold Qeq, Qdiv, Qmult, Qplus, Qinv, inject_Z; cbn; lia. }
  split.
  { eapply rounds_to_Qeq.
    2:{ apply rounds_to_b_sound; [|eassumption]. lia. }
    unfold Qeq, Qdiv, Qmult, Qinv, inject_Z; cbn; lia. }
  split.
  { eapply rounds_to_Qeq.
    2:{ apply rounds_to_b_sound; [|eassumption]. lia. }
    unfold Qeq, Qdiv, Qmult, Qinv, inject_Z; cbn; lia. }
  repeat split; vm_compute; reflexivity.
Qed.

(** ** The theorems at work on the example sensor *)

(** Against the pipelined sensor a read returns the register asked for, and
    a burst returns the nine registers in the order of [burst_order]. *)
Lemma regRead_reference_sensor :
  fst (regRead sensor_shift FNCTIO_CTRL IMU) = 0x3736
  /\ fst (sensorRead sensor_shift ALM_STS_example IMU) =
       map (sensor_word sensor0) (burst_order ALM_STS_example).
Proof. split; vm_compute; reflexivity. Qed.

(** On the wire the low frame of a write to in-page address 0 carries the
    bytes of a page-select frame: after [regWrite(PAGE_ID3, 2)] the sensor is
    on page 2 while [currentPage] is 3.  Frames are told apart by the site
    that issues them, not by their bytes. *)
Lemma regWrite_page_register :
  wire (trace (snd (regWrite sensor_shift PAGE_ID3 0x02 IMU))) =
    [(PageSelect, 0x80, 0x03); (WriteLow, 0x80, 0x02); (WriteHigh, 0x81, 0x00)]
  /\ s_page (link (snd (regWrite sensor_shift PAGE_ID3 0x02 IMU))) = 2
  /\ currentPage (imu (snd (regWrite sensor_shift PAGE_ID3 0x02 IMU))) = 3.
Proof. repeat split; vm_compute; reflexivity. Qed.

(** A read of FNCTIO_CTRL on the example sensor. *)
Lemma regRead_spec_witness :
  is_u16 FNCTIO_CTRL
  /\ fst (regRead sensor_shift FNCTIO_CTRL IMU) = 0x3736.
Proof.
  assert (H : is_u16 FNCTIO_CTRL) by (unfold is_u16, FNCTIO_CTRL; lia).
  split; [exact H|].
  pose proof (regRead_spec sensor_shift FNCTIO_CTRL IMU H) as R.
  cbv zeta in R. destruct R as (_ & _ & _ & R). rewrite R.
  vm_compute. reflexivity.
Defined.

(** The first write of [setup()], from the freshly constructed object. *)
Lemma page_cache_invariant_witness :
  is_u16 FNCTIO_CTRL /\ is_i16 0x0C
  /\ currentPage (imu (construct 10 2 6 sensor0)) = 0
  /\ lazily_selects (page_of FNCTIO_CTRL) IMU
       (snd (regWrite sensor_shift FNCTIO_CTRL 0x0C IMU)).
Proof.
  assert (H : is_u16 FNCTIO_CTRL) by (unfold is_u16, FNCTIO_CTRL; lia).
  assert (Hd : is_i16 0x0C) by (unfold is_i16; lia).
  split; [exact H|]. split; [exact Hd|].
  pose proof (page_cache_invariant sensor_shift ALM_STS_example
                10 2 6 sensor0 IMU FNCTIO_CTRL 0x0C 100 H Hd) as P.
  destruct P as (P0 & _ & P2 & _). split; [exact P0 | exact P2].
Defined.

(** A read on page 0 followed by a read on page 3. *)
Lemma read_then_read_witness :
  is_u16 DIAG_STS /\ is_u16 FNCTIO_CTRL
  /\ exists r1 r2 r3 r4 rest,
       trace (snd (regRead sensor_shift FNCTIO_CTRL
                     (snd (regRead sensor_shift DIAG_STS IMU)))) =
         trace (snd (regRead sensor_shift DIAG_STS IMU)) ++
         Frame 10 PageSelect 0x80 0x03 r1 r2 :: DelayMicroseconds 5 ::
         Frame 10 AddressFrame 0x06 0x00 r3 r4 :: rest.
Proof.
  assert (H1 : is_u16 DIAG_STS) by (unfold is_u16, DIAG_STS; lia).
  assert (H2 : is_u16 FNCTIO_CTRL) by (unfold is_u16, FNCTIO_CTRL; lia).
  split; [exact H1|]. split; [exact H2|].
  pose proof (read_then_read sensor_shift DIAG_STS FNCTIO_CTRL IMU H1 H2) as R.
  cbv zeta in R. destruct R as (R & _ & _).
  apply R. vm_compute. discriminate.
Defined.

(** The four accesses of [setup()] share one page-select frame. *)
Lemma same_page_select_count_witness :
  Forall wf_op setup_ops
  /\ Forall (fun o => page_of (op_addr o) = 3) setup_ops
  /\ count_frames PageSelect (trace (snd (run sensor_shift setup_ops IMU)))
     = 1%nat.
Proof.
  assert (Hwf : Forall wf_op setup_ops)
    by (repeat constructor; unfold is_u16, is_i16, FNCTIO_CTRL, DEC_RATE; lia).
  assert (Hp : Forall (fun o => page_of (op_addr o) = 3) setup_ops)
    by (repeat constructor).
  split; [exact Hwf|]. split; [exact Hp|].
  pose proof (same_page_select_count sensor_shift 10 2 6 sensor0 3 setup_ops
                Hwf Hp) as S.
  cbv zeta in S. destruct S as (_ & _ & S). apply S; [lia | discriminate].
Defined.

(** A write that "succeeds" and a stuck link that reads as -2. *)
Lemma no_failure_reporting_witness :
  is_u16 FNCTIO_CTRL /\ is_i16 0x0C /\ is_i16 (-2)
  /\ length [1; -2; 3; -4; 5; -6; 7; -8; 9] = 9%nat
  /\ Forall is_i16 [1; -2; 3; -4; 5; -6; 7; -8; 9]
  /\ fst (regWrite sensor_shift FNCTIO_CTRL 0x0C IMU) = 1
  /\ fst (regRead (stuck_shift (-2)) FNCTIO_CTRL (construct 10 2 6 false)) = -2.
Proof.
  assert (Ha : is_u16 FNCTIO_CTRL) by (unfold is_u16, FNCTIO_CTRL; lia).
  assert (Hd : is_i16 0x0C) by (unfold is_i16; lia).
  assert (Hv : is_i16 (-2)) by (unfold is_i16; lia).
  assert (Hl : length [1; -2; 3; -4; 5; -6; 7; -8; 9] = 9%nat) by reflexivity.
  assert (Hvs : Forall is_i16 [1; -2; 3; -4; 5; -6; 7; -8; 9])
    by (repeat constructor; unfold is_i16; lia).
  split; [exact Ha|]. split; [exact Hd|]. split; [exact Hv|].
  split; [exact Hl|]. split; [exact Hvs|].
  pose proof (no_failure_reporting sensor sensor_shift IMU FNCTIO_CTRL 0x0C
                (-2) ALM_STS_example 10 2 6 [1; -2; 3; -4; 5; -6; 7; -8; 9]
                Ha Hd Hv Hl Hvs) as N.
  destruct N as (N1 & _ & N3 & _). split; [exact N1 | exact N3].
Defined.

(** [tempScale(1000)], about 39.29 degrees. *)
Lemma scaling_spec_witness :
  is_i16 1000
  /\ rounds_to (tempScale 1000) (inject_Z 1000 * 0.01429 + 25).
Proof.
  assert (H : is_i16 1000) by (unfold is_i16; lia).
  split; [exact H|].
  pose proof (scaling_spec 1000 H) as S.
  destruct S as (_ & _ & _ & S & _). exact S.
Defined.

(** C5 as stated fails on page 0: three reads of page-0 registers from a
    freshly constructed object issue no page-select frame, not one. *)
Lemma same_page_reads_without_select :
  Forall wf_op output_ops
  /\ Forall (fun o => page_of (op_addr o) = 0) output_ops
  /\ count_frames PageSelect (trace (snd (run sensor_shift output_ops IMU)))
     <> 1%nat.
Proof.
  split; [|split].
  - repeat constructor;
      unfold is_u16, DIAG_STS, X_GYRO_OUT, TEMP_OUT; lia.
  - repeat constructor.
  - vm_compute. discriminate.
Qed.

(** C7 as stated fails: a burst is ten frames, not nine. *)
Lemma sensorRead_not_nine_frames :
  count_frames BurstFrame
    (trace (snd (sensorRead sensor_shift ALM_STS_example IMU))) <> 9%nat.
Proof. vm_compute. discriminate. Qed.

Section CallFacts.
Context {Device : Type}.
Variable shift : Device -> Z -> Device * Z.
Variable ALM_STS : Z.
Implicit Types (m : machine Device).

Lemma wire_app t1 t2 : wire (t1 ++ t2) = wire t1 ++ wire t2.
Proof. unfold wire. apply flat_map_app. Qed.

Lemma select_events_count page st m :
  count_frames PageSelect (select_events shift page st m) =
    (if (currentPage (imu m) =? page)%Z then 0 else 1)%nat
  /\ length (wire (select_events shift page st m)) =
    (if (currentPage (imu m) =? page)%Z then 0 else 1)%nat.
Proof.
  unfold select_events. destruct (currentPage (imu m) =? page); split; reflexivity.
Qed.

Lemma configSPI_run m :
  configSPI m =
    (1, mkMachine (imu m) (link m)
          (trace m ++ [SPI_beginTransaction 2000000 SPI_MODE3])).
Proof. reflexivity. Qed.

Lemma delay_run ms m :
  delay Device ms m =
    (tt, mkMachine (imu m) (link m) (trace m ++ [Delay ms])).
Proof. reflexivity. Qed.

(** What one call does to the cache and to the counts of frames. *)
Lemma invoke_counts c m :
  wf_call c ->
  let m' := invoke shift ALM_STS c m in
  currentPage (imu m') = last_page (currentPage (imu m)) [c]
  /\ count_frames PageSelect (trace m') =
       (count_frames PageSelect (trace m) + page_changes (currentPage (imu m)) [c])%nat
  /\ length (wire (trace m')) =
       (length (wire (trace m)) + page_changes (currentPage (imu m)) [c]
        + access_frames c)%nat.
Proof.
  intros Hwf. destruct c as [a | a d | | ms | | ms]; cbn [invoke wf_call] in *.
  - pose proof (regRead_run shift a m Hwf) as R. cbv zeta in R. rewrite R.
    cbn [snd imu trace set_page currentPage last_page page_changes call_page access_frames].
    rewrite !count_frames_app, !wire_app, !length_app.
    destruct (select_events_count (page_of a) (_stall (imu m)) m) as [E1 E2].
    rewrite E1, E2. destruct (currentPage (imu m) =? page_of a); repeat split; cbn; lia.
  - destruct Hwf as [Ha Hd].
    pose proof (regWrite_run shift a d m Ha Hd) as R. cbv zeta in R. rewrite R.
    cbn [snd imu trace set_page currentPage last_page page_changes call_page access_frames].
    rewrite !count_frames_app, !wire_app, !length_app.
    destruct (select_events_count (page_of a) (_stall (imu m)) m) as [E1 E2].
    rewrite E1, E2. destruct (currentPage (imu m) =? page_of a); repeat split; cbn; lia.
  - pose proof (sensorRead_run shift ALM_STS m) as R. cbv zeta in R. rewrite R.
    cbn [snd imu trace set_page currentPage last_page page_changes call_page access_frames].
    rewrite !count_frames_app, !wire_app, !length_app.
    destruct (select_events_count 0 10 m) as [E1 E2].
    rewrite E1, E2.
    pose proof (exchanges_length shift (selected shift 0 m) (burst_tx ALM_STS)) as L.
    destruct (snd (exchanges shift (selected shift 0 m) (burst_tx ALM_STS)))
      as [|r0 [|r1 [|r2 [|r3 [|r4 [|r5 [|r6 [|r7 [|r8 [|r9 [|]]]]]]]]]]];
      try discriminate L.
    destruct (currentPage (imu m) =? 0); repeat split; cbn; lia.
  - rewrite resetDUT_run. cbn [snd imu trace last_page page_changes call_page access_frames].
    rewrite !count_frames_app, !wire_app, !length_app. repeat split; cbn; lia.
  - rewrite configSPI_run.
    cbn [snd imu trace last_page page_changes call_page access_frames].
    rewrite !count_frames_app, !wire_app, !length_app. repeat split; cbn; lia.
  - rewrite delay_run.
    cbn [snd imu trace last_page page_changes call_page access_frames].
    rewrite !count_frames_app, !wire_app, !length_app. repeat split; cbn; lia.
Qed.

Lemma invoke_all_cons c cs m :
  invoke_all shift ALM_STS (c :: cs) m =
    invoke_all shift ALM_STS cs (invoke shift ALM_STS c m).
Proof. reflexivity. Qed.

Lemma invoke_all_counts cs :
  Forall wf_call cs ->
  forall m,
    let m' := invoke_all shift ALM_STS cs m in
    currentPage (imu m') = last_page (currentPage (imu m)) cs
    /\ count_frames PageSelect (trace m') =
         (count_frames PageSelect (trace m)
          + page_changes (currentPage (imu m)) cs)%nat
    /\ length (wire (trace m')) =
         (length (wire (trace m)) + page_changes (currentPage (imu m)) cs
          + total_access_frames cs)%nat.
Proof.
  induction 1 as [|c cs Hc _ IH]; intros m.
  - cbn. repeat split; lia.
  - cbv zeta. rewrite invoke_all_cons.
    destruct (IH (invoke shift ALM_STS c m)) as (P & S & F).
    destruct (invoke_counts c m Hc) as (P1 & S1 & F1).
    rewrite P, S, F, P1, S1, F1.
    cbn [last_page page_changes total_access_frames].
    destruct (call_page c) as [p|]; repeat split; try reflexivity; lia.
Qed.

(** X1: in any sequence of calls of the driver, reads, writes, bursts,
    resets and reconfigurations mixed, the page-select frames issued are as
    many as the changes of page along the sequence, counted from the page
    the cache holds at the start; the cache ends on the page of the last
    register access. *)
Theorem page_selects_follow_page_changes cs m :
  Forall wf_call cs ->
  count_frames PageSelect (trace (invoke_all shift ALM_STS cs m)) =
    (count_frames PageSelect (trace m)
     + page_changes (currentPage (imu m)) cs)%nat
  /\ currentPage (imu (invoke_all shift ALM_STS cs m)) =
       last_page (currentPage (imu m)) cs.
Proof.
  intros H. destruct (invoke_all_counts cs H m) as (P & S & _). now split.
Qed.

(** X2: the frames a sequence of calls puts on the bus: two for each read
    or write, ten for each burst, none for a reset or a reconfiguration, and
    one more for each change of page. *)
Theorem frames_on_the_bus cs m :
  Forall wf_call cs ->
  length (wire (trace (invoke_all shift ALM_STS cs m))) =
    (length (wire (trace m)) + total_access_frames cs
     + page_changes (currentPage (imu m)) cs)%nat.
Proof.
  intros H. destruct (invoke_all_counts cs H m) as (_ & _ & F). lia.
Qed.





End CallFacts.

Section ByteFacts.
Context {Device : Type}.
Variable shift : Device -> Z -> Device * Z.
Implicit Types (m : machine Device).

(** X4: the two data bytes [regWrite] sends, low byte in the first frame
    and high byte in the second, joined the way the read path joins the
    bytes it receives, give the 16-bit value written back, negative values
    included. *)
Theorem regWrite_data_bytes addr data m :
  is_u16 addr -> is_i16 data ->
  exists pre a1 a2 lo hi r1 r2 r3 r4,
    trace (snd (regWrite shift addr data m)) =
      pre ++ [Frame (_CS (imu m)) WriteLow a1 lo r1 r2;
              DelayMicroseconds (_stall (imu m));
              Frame (_CS (imu m)) WriteHigh a2 hi r3 r4;
              DelayMicroseconds (_stall (imu m))]
    /\ is_u8 lo /\ is_u8 hi
    /\ join (hi, lo) = data.
Proof.
  intros Ha Hd.
  pose proof (regWrite_run shift addr data m Ha Hd) as R. cbv zeta in R.
  rewrite R. cbn [snd trace].
  eexists (trace m ++ select_events shift (page_of addr) (_stall (imu m)) m).
  eexists _, _, _, _, _, _, _, _.
  split; [now rewrite <- app_assoc|].
  split; [apply u8_range|]. split; [apply u8_range|].
  unfold join. cbn [fst snd].
  fold (u8 data) (u8 (Z.shiftr data 8)). fold (u8 (u8 data)).
  rewrite (u8_id (u8 data)) by apply u8_range.
  now apply i16_of_bytes.
Qed.

Lemma lor_u16 a b : is_u16 a -> is_u16 b -> is_u16 (Z.lor a b).
Proof.
  intros Ha Hb. rewrite <- (u16_id a Ha), <- (u16_id b Hb).
  unfold u16 at 1 2. rewrite <- Z.land_lor_distr_l.
  fold (u16 (Z.lor a b)).
  unfold is_u16. rewrite u16_mod. apply Z.mod_pos_bound. lia.
Qed.

Lemma page_of_bit7 addr : page_of (Z.lor addr 0x80) = page_of addr.
Proof.
  unfold page_of. rewrite Z.shiftr_lor. change (Z.shiftr 0x80 8) with 0.
  apply Z.lor_0_r.
Qed.

Lemma write_addr_bit7 addr :
  write_addr (offset_of (Z.lor addr 0x80)) = write_addr (offset_of addr).
Proof.
  unfold write_addr, offset_of.
  rewrite Z.land_lor_distr_l. change (Z.land 0x80 0xFF) with 0x80.
  rewrite Z.land_lor_distr_l. change (Z.land 0x80 0x7F) with 0.
  now rewrite Z.lor_0_r.
Qed.

(** X5: [regWrite] masks bit 7 of the in-page offset before it sets the
    write bit, so an address with offset 0x80 to 0xFF is written exactly as
    the address 0x80 below it: same frames, same result, same state. *)
Theorem regWrite_folds_bit7 addr data m :
  is_u16 addr -> is_i16 data ->
  regWrite shift (Z.lor addr 0x80) data m = regWrite shift addr data m.
Proof.
  intros Ha Hd.
  assert (Ha' : is_u16 (Z.lor addr 0x80))
    by (apply lor_u16; [assumption | unfold is_u16; lia]).
  pose proof (regWrite_run shift addr data m Ha Hd) as R. cbv zeta in R.
  pose proof (regWrite_run shift (Z.lor addr 0x80) data m Ha' Hd) as R'.
  cbv zeta in R'.
  rewrite R, R', page_of_bit7, write_addr_bit7. reflexivity.
Qed.

Lemma write_addr_high o : is_u8 o -> 0x80 <= o -> write_addr o = o.
Proof.
  intros Ho Hh.
  assert (G : forall z, 0 <= z < 0 + Z.of_nat 256 ->
              implb (0x80 <=? z) (write_addr z =? z) = true).
  { apply all_from_spec. vm_compute. reflexivity. }
  unfold is_u8 in Ho. specialize (G o ltac:(lia)).
  apply Z.leb_le in Hh. rewrite Hh in G. now apply Z.eqb_eq in G.
Qed.

(** X6: [regRead] sends the in-page offset as it is, without clearing bit 7:
    at an offset of 0x80 or more its address frame has the write bit set
    and carries the very bytes with which [regWrite] stores 0x00 at that
    offset. *)
Theorem regRead_high_offset addr m :
  is_u16 addr -> 0x80 <= offset_of addr ->
  exists pre post r1 r2,
    trace (snd (regRead shift addr m)) =
      pre ++ Frame (_CS (imu m)) AddressFrame
                   (write_addr (offset_of addr)) 0x00 r1 r2
          :: post
    /\ count_frames AddressFrame pre = count_frames AddressFrame (trace m)
    /\ Z.testbit (write_addr (offset_of addr)) 7 = true.
Proof.
  intros Ha Hh.
  pose proof (regRead_run shift addr m Ha) as R. cbv zeta in R.
  rewrite R. cbn [snd trace].
  rewrite (write_addr_high _ (offset_of_range addr) Hh).
  eexists (trace m ++ select_events shift (page_of addr) (_stall (imu m)) m).
  eexists _, _, _.
  split; [now rewrite <- app_assoc|]. split.
  - rewrite count_frames_app. unfold select_events.
    destruct (currentPage (imu m) =? page_of addr); cbn; lia.
  - pose proof (offset_of_range addr) as Ho.
    assert (G : forall z, 0 <= z < 0 + Z.of_nat 256 ->
                implb (0x80 <=? z) (Z.testbit z 7) = true).
    { apply all_from_spec. vm_compute. reflexivity. }
    unfold is_u8 in Ho. specialize (G (offset_of addr) ltac:(lia)).
    apply Z.leb_le in Hh. now rewrite Hh in G.
Qed.

End ByteFacts.

Section SketchFacts.
Context {Device : Type}.
Variable shift : Device -> Z -> Device * Z.
Variable ALM_STS : Z.
Implicit Types (m : machine Device).

Lemma bind_eq {A B} (c : M Device A) (k : A -> M Device B) m :
  bind Device c k m = k (fst (c m)) (snd (c m)).
Proof. unfold bind. now destruct (c m). Qed.

Lemma example_setup_calls_run g :
  Example.IMU (Example.setup shift g) =
    invoke_all shift ALM_STS example_setup_calls (Example.IMU g).
Proof.
  unfold Example.setup. cbn [Example.IMU]. rewrite !bind_eq. reflexivity.
Qed.

Lemma example_grab_calls_run g :
  Example.IMU (Example.grabData shift ALM_STS g) =
    invoke_all shift ALM_STS (example_grab_calls ALM_STS) (Example.IMU g).
Proof.
  unfold Example.grabData. cbn [Example.IMU]. rewrite !bind_eq. reflexivity.
Qed.

Lemma datalog_setup_calls_run g :
  Datalog.IMU (Datalog.setup shift g) =
    invoke_all shift ALM_STS datalog_setup_calls (Datalog.IMU g).
Proof.
  unfold Datalog.setup. cbn [Datalog.IMU]. rewrite !bind_eq. reflexivity.
Qed.

Lemma regRead_result_i16 addr m :
  is_u16 addr -> is_i16 (fst (regRead shift addr m)).
Proof.
  intros H. pose proof (regRead_run shift addr m H) as R. cbv zeta in R.
  rewrite R. apply i16_range.
Qed.

Lemma burst_order_u16 :
  is_u16 ALM_STS -> Forall is_u16 (burst_order ALM_STS).
Proof.
  intros H. unfold burst_order.
  repeat apply Forall_cons; try apply Forall_nil; try exact H;
    unfold is_u16, DIAG_STS, X_GYRO_OUT, Y_GYRO_OUT, Z_GYRO_OUT, X_ACCL_OUT,
      Y_ACCL_OUT, Z_ACCL_OUT, TEMP_OUT; lia.
Qed.

Lemma example_grab_calls_wf :
  is_u16 ALM_STS -> Forall wf_call (example_grab_calls ALM_STS).
Proof.
  intros H. unfold example_grab_calls.
  apply Forall_map. exact (burst_order_u16 H).
Qed.

Lemma page_changes_page0 cur :
  page_of ALM_STS = 0 ->
  page_changes cur (example_grab_calls ALM_STS) =
    (if (cur =? 0)%Z then 0 else 1)%nat
  /\ last_page cur (example_grab_calls ALM_STS) = 0.
Proof.
  intros H. unfold example_grab_calls, burst_order.
  cbn [map page_changes last_page call_page]. rewrite H.
  change (page_of DIAG_STS) with 0. change (page_of X_GYRO_OUT) with 0.
  change (page_of Y_GYRO_OUT) with 0. change (page_of Z_GYRO_OUT) with 0.
  change (page_of X_ACCL_OUT) with 0. change (page_of Y_ACCL_OUT) with 0.
  change (page_of Z_ACCL_OUT) with 0. change (page_of TEMP_OUT) with 0.
  cbn [Z.eqb]. split; [lia | reflexivity].
Qed.

(** X7: [grabData()] of the example sketch reads the nine registers of a
    burst, in the order of a burst, with nine calls of [regRead]: it stores
    nine 16-bit words, leaves the cache on page 0, selects the page once if
    the cache was elsewhere, and puts 18 frames on the bus where
    [sensorRead] from the same state puts 10. *)
Theorem example_grabData_cost g :
  is_u16 ALM_STS -> page_of ALM_STS = 0 ->
  let m := Example.IMU g in
  let g' := Example.grabData shift ALM_STS g in
  let switch := (if (currentPage (imu m) =? 0)%Z then 0 else 1)%nat in
  length (Example.sensorData g') = 9%nat
  /\ Forall is_i16 (Example.sensorData g')
  /\ currentPage (imu (Example.IMU g')) = 0
  /\ count_frames PageSelect (trace (Example.IMU g')) =
       (count_frames PageSelect (trace m) + switch)%nat
  /\ length (wire (trace (Example.IMU g'))) =
       (length (wire (trace m)) + 18 + switch)%nat
  /\ length (wire (trace (snd (sensorRead shift ALM_STS m)))) =
       (length (wire (trace m)) + 10 + switch)%nat.
Proof.
  intros Ha Hp m g' switch. subst g'.
  split.
  { unfold Example.grabData. cbn [Example.sensorData]. rewrite !bind_eq.
    reflexivity. }
  split.
  { unfold Example.grabData. cbn [Example.sensorData]. rewrite !bind_eq.
    cbn [ret fst]. repeat constructor; apply regRead_result_i16;
      try exact Ha;
      unfold is_u16, DIAG_STS, X_GYRO_OUT, Y_GYRO_OUT, Z_GYRO_OUT, X_ACCL_OUT,
        Y_ACCL_OUT, Z_ACCL_OUT, TEMP_OUT; lia. }
  rewrite example_grab_calls_run.
  destruct (invoke_all_counts shift ALM_STS _ (example_grab_calls_wf Ha) m)
    as (P & S & F).
  destruct (page_changes_page0 (currentPage (imu m)) Hp) as [C L].
  fold m. rewrite P, S, F, C, L.
  split; [reflexivity|]. split; [reflexivity|]. split; [cbn; lia|].
  destruct (invoke_counts shift ALM_STS CallBurst m I) as (_ & _ & F').
  cbn [invoke] in F'. rewrite F'. cbn. subst switch.
  destruct (currentPage (imu m) =? 0); lia.
Qed.

(** One acquisition of either sketch, on the cache and on the counts. *)
Lemma example_grab_step g :
  is_u16 ALM_STS -> page_of ALM_STS = 0 ->
  let m := Example.IMU g in
  let m' := Example.IMU (Example.grabData shift ALM_STS g) in
  let switch := (if (currentPage (imu m) =? 0)%Z then 0 else 1)%nat in
  currentPage (imu m') = 0
  /\ count_frames PageSelect (trace m') =
       (count_frames PageSelect (trace m) + switch)%nat
  /\ List.length (wire (trace m')) =
       (List.length (wire (trace m)) + 18 + switch)%nat.
Proof.
  intros Ha Hp m m' switch. subst m'. rewrite example_grab_calls_run.
  destruct (invoke_all_counts shift ALM_STS _ (example_grab_calls_wf Ha) m)
    as (P & S & F).
  destruct (page_changes_page0 (currentPage (imu m)) Hp) as [C L].
  fold m. rewrite P, S, F, C, L.
  split; [reflexivity|]. split; [reflexivity|]. cbn. lia.
Qed.

Lemma datalog_grab_step g :
  let m := Datalog.IMU g in
  let m' := Datalog.IMU (Datalog.grabData shift ALM_STS g) in
  let switch := (if (currentPage (imu m) =? 0)%Z then 0 else 1)%nat in
  currentPage (imu m') = 0
  /\ count_frames PageSelect (trace m') =
       (count_frames PageSelect (trace m) + switch)%nat
  /\ List.length (wire (trace m')) =
       (List.length (wire (trace m)) + 10 + switch)%nat.
Proof.
  intros m m' switch. subst m'. unfold Datalog.grabData. cbn [Datalog.IMU].
  destruct (invoke_counts shift ALM_STS CallBurst m I) as (P & S & F).
  cbn [invoke] in P, S, F. fold m. rewrite P, S, F. cbn. subst switch.
  destruct (currentPage (imu m) =? 0); repeat split; lia.
Qed.

Lemma example_setup_counts d :
  let m := Example.IMU (Example.setup shift (Example.boot d)) in
  currentPage (imu m) = 3
  /\ count_frames PageSelect (trace m) = 1%nat
  /\ List.length (wire (trace m)) = 9%nat.
Proof.
  cbv zeta. rewrite (example_setup_calls_run (Example.boot d)).
  assert (W : Forall wf_call example_setup_calls).
  { unfold example_setup_calls.
    repeat apply Forall_cons; try apply Forall_nil; cbn [wf_call];
      unfold is_u16, is_i16, FNCTIO_CTRL, DEC_RATE; lia. }
  destruct (invoke_all_counts shift ALM_STS _ W (Example.IMU (Example.boot d)))
    as (P & S & F).
  rewrite P, S, F. repeat split; reflexivity.
Qed.

Lemma datalog_setup_counts d :
  let m := Datalog.IMU (Datalog.setup shift (Datalog.boot d)) in
  currentPage (imu m) = 3
  /\ count_frames PageSelect (trace m) = 1%nat
  /\ List.length (wire (trace m)) = 5%nat.
Proof.
  cbv zeta. rewrite (datalog_setup_calls_run (Datalog.boot d)).
  assert (W : Forall wf_call datalog_setup_calls).
  { unfold datalog_setup_calls.
    repeat apply Forall_cons; try apply Forall_nil; cbn [wf_call];
      unfold is_u16, is_i16, FNCTIO_CTRL, DEC_RATE; lia. }
  destruct (invoke_all_counts shift ALM_STS _ W (Datalog.IMU (Datalog.boot d)))
    as (P & S & F).
  rewrite P, S, F. repeat split; reflexivity.
Qed.

(** X8: after [setup()], however often the data-ready interrupt runs
    [grabData()], the sketches issue two page-select frames in all: one in
    [setup()] for page 3 and one in the first acquisition for page 0.  After
    [k+1] acquisitions the example sketch has put [10 + 18(k+1)] frames on
    the bus and the datalog sketch [6 + 10(k+1)]. *)
Theorem acquisitions_after_setup d k :
  is_u16 ALM_STS -> page_of ALM_STS = 0 ->
  let ex := Nat.iter (S k) (Example.grabData shift ALM_STS)
              (Example.setup shift (Example.boot d)) in
  let dl := Nat.iter (S k) (Datalog.grabData shift ALM_STS)
              (Datalog.setup shift (Datalog.boot d)) in
  count_frames PageSelect (trace (Example.IMU ex)) = 2%nat
  /\ List.length (wire (trace (Example.IMU ex))) = (10 + 18 * S k)%nat
  /\ count_frames PageSelect (trace (Datalog.IMU dl)) = 2%nat
  /\ List.length (wire (trace (Datalog.IMU dl))) = (6 + 10 * S k)%nat.
Proof.
  intros Ha Hp ex dl.
  assert (E : currentPage (imu (Example.IMU ex)) = 0
              /\ count_frames PageSelect (trace (Example.IMU ex)) = 2%nat
              /\ List.length (wire (trace (Example.IMU ex)))
                 = (10 + 18 * S k)%nat).
  { subst ex. clear dl. induction k as [|k IH].
    - cbn [Nat.iter nat_rect].
      destruct (example_setup_counts d) as (P & Sc & F).
      destruct (example_grab_step (Example.setup shift (Example.boot d)) Ha Hp)
        as (P1 & S1 & F1).
      rewrite P1, S1, F1, P, Sc, F. repeat split.
    - destruct IH as (P & Sc & F).
      change (Nat.iter (S (S k)) (Example.grabData shift ALM_STS)
                (Example.setup shift (Example.boot d)))
        with (Example.grabData shift ALM_STS
                (Nat.iter (S k) (Example.grabData shift ALM_STS)
                   (Example.setup shift (Example.boot d)))).
      destruct (example_grab_step
                  (Nat.iter (S k) (Example.grabData shift ALM_STS)
                     (Example.setup shift (Example.boot d))) Ha Hp)
        as (P1 & S1 & F1).
      rewrite P1, S1, F1, P, Sc, F. cbn [Z.eqb]. repeat split; lia. }
  assert (D : currentPage (imu (Datalog.IMU dl)) = 0
              /\ count_frames PageSelect (trace (Datalog.IMU dl)) = 2%nat
              /\ List.length (wire (trace (Datalog.IMU dl)))
                 = (6 + 10 * S k)%nat).
  { subst dl. clear E ex. induction k as [|k IH].
    - cbn [Nat.iter nat_rect].
      destruct (datalog_setup_counts d) as (P & Sc & F).
      destruct (datalog_grab_step (Datalog.setup shift (Datalog.boot d)))
        as (P1 & S1 & F1).
      rewrite P1, S1, F1, P, Sc, F. repeat split.
    - destruct IH as (P & Sc & F).
      change (Nat.iter (S (S k)) (Datalog.grabData shift ALM_STS)
                (Datalog.setup shift (Datalog.boot d)))
        with (Datalog.grabData shift ALM_STS
                (Nat.iter (S k) (Datalog.grabData shift ALM_STS)
                   (Datalog.setup shift (Datalog.boot d)))).
      destruct (datalog_grab_step
                  (Nat.iter (S k) (Datalog.grabData shift ALM_STS)
                     (Datalog.setup shift (Datalog.boot d))))
        as (P1 & S1 & F1).
      rewrite P1, S1, F1, P, Sc, F. cbn [Z.eqb]. repeat split; lia. }
  destruct E as (_ & E1 & E2). destruct D as (_ & D1 & D2).
  repeat split; assumption.
Qed.

End SketchFacts.

(** ** Order of the scaled values *)

Lemma digits2_pos_lower m : 2 ^ (Zpos (digits2_pos m) - 1) <= Zpos m.
Proof.
  induction m as [p IH | p IH |]; cbn [digits2_pos].
  - rewrite Pos2Z.inj_succ. replace (Z.succ (Z.pos (digits2_pos p)) - 1)
      with (Z.succ (Z.pos (digits2_pos p) - 1)) by lia.
    rewrite Z.pow_succ_r by lia. lia.
  - rewrite Pos2Z.inj_succ. replace (Z.succ (Z.pos (digits2_pos p)) - 1)
      with (Z.succ (Z.pos (digits2_pos p) - 1)) by lia.
    rewrite Z.pow_succ_r by lia. lia.
  - cbn. lia.
Qed.

(** A binary32 mantissa in canonical form has 24 bits, or the exponent is
    the least one. *)
Lemma canonical_binary32 m e :
  canonical_mantissa 24 128 m e = true ->
  2 ^ 23 <= Zpos m \/ e = -149.
Proof.
  unfold canonical_mantissa, fexp, emin. intros H. apply Z.eqb_eq in H.
  destruct (Z.eq_dec e (-149)) as [-> | Hne]; [now right | left].
  assert (D : Zpos (digits2_pos m) = 24) by lia.
  pose proof (digits2_pos_lower m) as L. rewrite D in L. exact L.
Qed.

Lemma two_power_pos e : (0 < (2 # 1) ^ e)%Q.
Proof. apply Qpower_0_lt. reflexivity. Qed.

(** The half unit in the last place of a binary32 number is small against
    the number. *)
Lemma half_ulp_small f :
  valid_binary 24 128 f = true ->
  (half_ulp f * inject_Z (2 ^ 24) <= Qabs (SF2Q f) + 1)%Q.
Proof.
  intros Hv. destruct f as [s | s | | s m e]; cbn [half_ulp SF2Q].
  1-3: (rewrite Qmult_0_l; apply (Qle_trans _ (0 + 1)%Q);
        [discriminate | apply Qplus_le_l, Qabs_nonneg]).
  cbn [valid_binary] in Hv. unfold bounded in Hv.
  apply andb_true_iff in Hv. destruct Hv as [Hc _].
  rewrite Qabs_Qmult, (Qabs_pos ((2 # 1) ^ e))
    by (apply Qlt_le_weak, two_power_pos).
  assert (A : (Qabs (inject_Z (cond_Zopp s (Z.pos m))) == inject_Z (Zpos m))%Q).
  { destruct s; cbn [cond_Zopp]; [|apply Qabs_pos; discriminate].
    change (Z.opp (Zpos m)) with (Zneg m).
    rewrite Qabs_neg by discriminate. reflexivity. }
  rewrite A.
  destruct (canonical_binary32 m e Hc) as [Hm | ->].
  - replace (e - 1) with (e + -1) by lia.
    rewrite Qpower_plus by discriminate.
    change ((2 # 1) ^ (-1))%Q with (1 # 2)%Q.
    pose proof (two_power_pos e) as P.
    assert (X : (inject_Z (2 ^ 23) <= inject_Z (Zpos m))%Q)
      by (rewrite <- Zle_Qle; exact Hm).
    change (inject_Z (2 ^ 24)) with (16777216 # 1)%Q.
    change (inject_Z (2 ^ 23)) with (8388608 # 1)%Q in X.
    set (p := ((2 # 1) ^ e)%Q) in *. set (x := inject_Z (Z.pos m)) in *.
    nra.
  - apply (Qle_trans _ (0 + 1)%Q).
    + vm_compute. discriminate.
    + apply Qplus_le_l. apply Qmult_le_0_compat.
      * change 0%Q with (inject_Z 0). rewrite <- Zle_Qle. lia.
      * apply Qlt_le_weak, two_power_pos.
Qed.

(** Two roundings of numbers far enough apart keep their order. *)
Lemma rounded_increasing (c B qa qb : Q) fa fb :
  rounds_to fa qa -> rounds_to fb qb ->
  (Qabs qa <= B)%Q -> (Qabs qb <= B)%Q ->
  (qa + c <= qb)%Q ->
  (2 * (B + 1) < c * 16777215)%Q ->
  (SF2Q fa < SF2Q fb)%Q.
Proof.
  intros (Va & _ & Ra) (Vb & _ & Rb) Ba Bb Hc Hs.
  pose proof (half_ulp_small fa Va) as Sa.
  pose proof (half_ulp_small fb Vb) as Sb.
  change (inject_Z (2 ^ 24)) with (16777216 # 1)%Q in Sa, Sb.
  apply Qabs_Qle_condition in Ra, Rb, Ba, Bb.
  assert (Fa : (Qabs (SF2Q fa) <= B + half_ulp fa)%Q)
    by (apply Qabs_Qle_condition; split; lra).
  assert (Fb : (Qabs (SF2Q fb) <= B + half_ulp fb)%Q)
    by (apply Qabs_Qle_condition; split; lra).
  lra.
Qed.

Lemma inject_Z_bounds raw :
  is_i16 raw -> (- (32768 # 1) <= inject_Z raw <= 32768 # 1)%Q.
Proof.
  unfold is_i16. intros H. split.
  - change (- (32768 # 1))%Q with (inject_Z (-32768)). rewrite <- Zle_Qle. lia.
  - change (32768 # 1)%Q with (inject_Z 32768). rewrite <- Zle_Qle. lia.
Qed.

Lemma inject_Z_step a b : a < b -> (inject_Z a + 1 <= inject_Z b)%Q.
Proof.
  intros H. change 1%Q with (inject_Z 1). rewrite <- inject_Z_plus.
  rewrite <- Zle_Qle. lia.
Qed.

(** The values of the five scaling functions on a 16-bit word. *)
Lemma scaled_values_all raw :
  is_i16 raw ->
  equals (accelScale raw) (inject_Z raw * 0.5)
  /\ rounds_to (gyroScale raw) (inject_Z raw * 0.005)
  /\ rounds_to (tempScale raw) (inject_Z raw * 0.01429 + 25)
  /\ rounds_to (deltaAngleScale raw) (inject_Z raw * 0.022)
  /\ rounds_to (deltaVelocityScale raw) (inject_Z raw * 6.104).
Proof.
  intros H.
  pose proof (all_from_spec scaling_check _ _ scaling_check_all raw) as C.
  assert (R : -32768 <= raw < -32768 + Z.of_nat (Pos.to_nat 65536))
    by (unfold is_i16 in H; rewrite positive_nat_Z; lia).
  specialize (C R). unfold scaling_check in C.
  do 4 (apply andb_true_iff in C; destruct C as [C ?]).
  split.
  { eapply equals_Qeq.
    2:{ apply equals_b_sound; [|eassumption]. lia. }
    unfold Qeq, Qdiv, Qmult, Qinv, inject_Z; cbn; lia. }
  split.
  { eapply rounds_to_Qeq.
    2:{ apply rounds_to_b_sound; [|eassumption]. lia. }
    unfold Qeq, Qdiv, Qmult, Qinv, inject_Z; cbn; lia. }
  split.
  { eapply rounds_to_Qeq.
    2:{ apply rounds_to_b_sound; [|eassumption]. lia. }
    unfold Qeq, Qdiv, Qmult, Qplus, Qinv, inject_Z; cbn; lia. }
  split.
  { eapply rounds_to_Qeq.
    2:{ apply rounds_to_b_sound; [|eassumption]. lia. }
    unfold Qeq, Qdiv, Qmult, Qinv, inject_Z; cbn; lia. }
  eapply rounds_to_Qeq.
  2:{ apply rounds_to_b_sound; [|eassumption]. lia. }
  unfold Qeq, Qdiv, Qmult, Qinv, inject_Z; cbn; lia.
Qed.

Lemma nth_i16 (l : list Z) i : Forall is_i16 l -> is_i16 (nth i l 0).
Proof.
  intros H. destruct (Nat.lt_ge_cases i (List.length l)) as [Hi | Hi].
  - rewrite Forall_forall in H. apply H. now apply nth_In.
  - rewrite nth_overflow by assumption. unfold is_i16. lia.
Qed.

Section ScaleFacts.
Context {Device : Type}.
Implicit Types (g : Example.globals Device).

(** X9: [scaleData()] fills the seven scaled values from the words 2 to 8
    of [sensorData]: gyroscope X, Y, Z from words 2, 3, 4, accelerometer X,
    Y, Z from words 5, 6, 7 and the temperature from word 8.  Whatever the
    16-bit words are, each value is a finite binary32 number, exact for the
    accelerometer and within half a unit in the last place for the others;
    the object and the raw words are left as they were. *)
Theorem example_scaleData g :
  Forall is_i16 (Example.sensorData g) ->
  let w i := inject_Z (nth i (Example.sensorData g) 0) in
  let g' := Example.scaleData g in
  let f i := nth i (Example.scaledData g') (S754_zero false) in
  List.length (Example.scaledData g') = 7%nat
  /\ rounds_to (f 0%nat) (w 2%nat * 0.005)
  /\ rounds_to (f 1%nat) (w 3%nat * 0.005)
  /\ rounds_to (f 2%nat) (w 4%nat * 0.005)
  /\ equals (f 3%nat) (w 5%nat * 0.5)
  /\ equals (f 4%nat) (w 6%nat * 0.5)
  /\ equals (f 5%nat) (w 7%nat * 0.5)
  /\ rounds_to (f 6%nat) (w 8%nat * 0.01429 + 25)
  /\ Example.IMU g' = Example.IMU g
  /\ Example.sensorData g' = Example.sensorData g.
Proof.
  intros H w g' f. subst w g' f. cbn [Example.scaleData Example.scaledData
    Example.IMU Example.sensorData nth].
  split; [reflexivity|].
  repeat (split; [apply scaled_values_all; apply nth_i16; exact H|]).
  split; reflexivity.
Qed.

Lemma example_loop_step g :
  let pc := Example.printCounter g in
  (pc + 1 < 200000 ->
     Example.printCounter (Example.loop g) = pc + 1
     /\ Example.serial (Example.loop g) = Example.serial g)
  /\ (200000 <= pc + 1 ->
     Example.printCounter (Example.loop g) = 0
     /\ Example.serial (Example.loop g) =
          Example.serial g ++ [DetachInterrupt 2]
          ++ Example.report (Example.scaleData g) ++ [AttachInterrupt 2])
  /\ Example.IMU (Example.loop g) = Example.IMU g
  /\ Example.sensorData (Example.loop g) = Example.sensorData g
  /\ Example.MSC (Example.loop g) = Example.MSC g
  /\ Example.DECR (Example.loop g) = Example.DECR g.
Proof.
  cbv zeta. unfold Example.loop.
  destruct (Example.printCounter g + 1 >=? 200000) eqn:E.
  - apply Z.geb_le in E. repeat split; try reflexivity; intros; lia.
  - rewrite Z.geb_leb in E. apply Z.leb_gt in E.
    repeat split; try reflexivity; intros; lia.
Qed.

(** What one report prints depends on the raw words and on the two control
    registers read in [setup()] only. *)
Lemma report_of_words g (h : Example.globals Device) :
  Example.sensorData h = Example.sensorData g ->
  Example.MSC h = Example.MSC g ->
  Example.DECR h = Example.DECR g ->
  Example.report (Example.scaleData h) = Example.report (Example.scaleData g).
Proof.
  intros D M R. unfold Example.report, Example.scaleData.
  cbn [Example.scaledData Example.sensorData Example.MSC Example.DECR].
  now rewrite D, M, R.
Qed.

Lemma concat_repeat_succ {A} (b : list A) k :
  concat (repeat b (S k)) = concat (repeat b k) ++ b.
Proof.
  induction k as [|k IH]; cbn [repeat concat] in *.
  - now rewrite app_nil_r.
  - rewrite IH at 1. now rewrite app_assoc.
Qed.

(** X10: [loop()] never touches the sensor, the raw words or the two
    control values, and keeps [printCounter] between 0 and 199999: after
    [n] calls the counter is [(c + n) mod 200000] and the serial log has
    grown by [(c + n) / 200000] reports and nothing else.  Each report is
    [detachInterrupt(2)], the 33 calls on [Serial] in the order of the
    source, [attachInterrupt(2)]; the values printed are [MSC] and [DECR]
    in hexadecimal, the gyroscope and accelerometer values scaled from the
    raw words 2 to 7, the raw words 0 and 1, and the temperature scaled
    from word 8. *)
Theorem example_loop_pacing g n :
  0 <= Example.printCounter g < 200000 ->
  let c := Example.printCounter g in
  let g' := Nat.iter n Example.loop g in
  let w i := nth i (Example.sensorData g) 0 in
  let one_report :=
    [DetachInterrupt 2;
     Serial_print (String Example.ESC "[2J");
     Serial_print (String Example.ESC "[H");
     Serial_println " ";
     Serial_println "ADIS16490 Teensy Example Program";
     Serial_println "Juan Chong - October 2016";
     Serial_println " ";
     Serial_println "Control Registers";
     Serial_print "FNCTIO_CTRL: ";
     Serial_println_hex (Example.MSC g);
     Serial_print "DEC_RATE: ";
     Serial_println_hex (Example.DECR g);
     Serial_println " ";
     Serial_println "Primary Output Registers";
     Serial_print "XGYRO: ";
     Serial_println_float (gyroScale (w 2%nat));
     Serial_print "YGYRO: ";
     Serial_println_float (gyroScale (w 3%nat));
     Serial_print "ZGYRO: ";
     Serial_println_float (gyroScale (w 4%nat));
     Serial_print "XACCL: ";
     Serial_println_float (accelScale (w 5%nat));
     Serial_print "YACCL: ";
     Serial_println_float (accelScale (w 6%nat));
     Serial_print "ZACCL: ";
     Serial_println_float (accelScale (w 7%nat));
     Serial_println " ";
     Serial_println "Status Registers";
     Serial_print "DIAG_STS: ";
     Serial_println_int (w 0%nat);
     Serial_print "ALM_STS: ";
     Serial_println_int (w 1%nat);
     Serial_print "TEMP: ";
     Serial_println_float (tempScale (w 8%nat));
     AttachInterrupt 2] in
  Example.printCounter g' = (c + Z.of_nat n) mod 200000
  /\ Example.serial g' =
       Example.serial g
       ++ concat (repeat one_report (Z.to_nat ((c + Z.of_nat n) / 200000)))
  /\ Example.IMU g' = Example.IMU g
  /\ Example.sensorData g' = Example.sensorData g
  /\ Example.MSC g' = Example.MSC g
  /\ Example.DECR g' = Example.DECR g.
Proof.
  intros Hc c g' w one_report. subst g'.
  assert (B : one_report =
              [DetachInterrupt 2] ++ Example.report (Example.scaleData g)
              ++ [AttachInterrupt 2]) by reflexivity.
  clearbody one_report. clear w.
  induction n as [|n IH].
  - cbn [Nat.iter nat_rect]. rewrite Z.add_0_r.
    rewrite Z.mod_small, Z.div_small by exact Hc.
    cbn [Z.to_nat repeat concat]. rewrite app_nil_r.
    repeat split; reflexivity.
  - change (Nat.iter (S n) Example.loop g)
      with (Example.loop (Nat.iter n Example.loop g)).
    destruct IH as (P & L & I & D & M & R).
    set (h := Nat.iter n Example.loop g) in *.
    destruct (example_loop_step h) as (Lo & Hi & I' & D' & M' & R').
    pose proof (Z.mod_pos_bound (c + Z.of_nat n) 200000 ltac:(lia)) as Bm.
    pose proof (Z.div_mod (c + Z.of_nat n) 200000 ltac:(lia)) as Q.
    assert (Qn : 0 <= (c + Z.of_nat n) / 200000)
      by (apply Z.div_pos; subst c; lia).
    rewrite I', D', M', R', I, D, M, R.
    replace (c + Z.of_nat (S n)) with (c + Z.of_nat n + 1) by lia.
    destruct (Z_lt_ge_dec (Example.printCounter h + 1) 200000) as [Lt | Ge].
    + destruct (Lo Lt) as [E1 E2]. rewrite E1, E2, L, P.
      assert (Mq : (c + Z.of_nat n + 1) mod 200000
                   = (c + Z.of_nat n) mod 200000 + 1
                   /\ (c + Z.of_nat n + 1) / 200000
                      = (c + Z.of_nat n) / 200000).
      { rewrite P in Lt. split.
        - symmetry.
          apply Z.mod_unique with (q := (c + Z.of_nat n) / 200000); lia.
        - symmetry.
          apply Z.div_unique with (r := (c + Z.of_nat n) mod 200000 + 1);
            lia. }
      destruct Mq as [M1 M2]. rewrite M1, M2. repeat split; reflexivity.
    + destruct (Hi ltac:(lia)) as [E1 E2]. rewrite E1, E2.
      assert (Mq : (c + Z.of_nat n + 1) mod 200000 = 0
                   /\ (c + Z.of_nat n + 1) / 200000
                      = (c + Z.of_nat n) / 200000 + 1).
      { rewrite P in Ge. split.
        - symmetry.
          apply Z.mod_unique with (q := (c + Z.of_nat n) / 200000 + 1); lia.
        - symmetry. apply Z.div_unique with (r := 0); lia. }
      destruct Mq as [M1 M2]. rewrite M1, M2.
      rewrite Z2Nat.inj_add by lia. change (Z.to_nat 1) with 1%nat.
      rewrite Nat.add_1_r, concat_repeat_succ.
      rewrite (report_of_words g h D M R), L, B, <- !app_assoc.
      repeat split; reflexivity.
Qed.

End ScaleFacts.

(** ** The line of the datalog sketch *)

Lemma digits_no_separator d :
  has_separator (NilEmpty.string_of_uint d) = false.
Proof. induction d; cbn; auto. Qed.

Lemma decimal_no_separator v : has_separator (Datalog.decimal v) = false.
Proof.
  unfold Datalog.decimal, NilZero.string_of_int, NilZero.string_of_uint.
  destruct (Z.to_int v) as [d | d]; destruct d; cbn;
    auto using digits_no_separator.
Qed.

Lemma read_decimal_decimal v : read_decimal (Datalog.decimal v) = Some v.
Proof.
  unfold read_decimal, Datalog.decimal.
  rewrite NilZero.isi.
  - cbn. now rewrite DecimalZ.of_to.
  - destruct v; cbn; try discriminate.
    intros [= E]. now apply Unsigned.to_uint_nonnil in E.
  - destruct v; cbn; try discriminate.
    intros [= E]. now apply Unsigned.to_uint_nonnil in E.
Qed.

Lemma fields_single a : has_separator a = false -> fields a = [a].
Proof.
  induction a as [|c a IH]; [reflexivity|]. cbn [has_separator fields].
  intros H. apply orb_false_iff in H. destruct H as [Hc Ha].
  rewrite Hc, (IH Ha). reflexivity.
Qed.

Lemma fields_append a rest :
  has_separator a = false ->
  fields (a ++ String "," rest)%string = a :: fields rest.
Proof.
  induction a as [|c a IH]; [reflexivity|].
  cbn [has_separator fields append].
  intros H. apply orb_false_iff in H. destruct H as [Hc Ha].
  rewrite Hc, (IH Ha). reflexivity.
Qed.

(** A line of the datalog sketch read back: seven fields, the words 2 to 8
    in decimal. *)
Lemma line_reads_back (w : list Z) :
  map read_decimal (fields (Datalog.line w)) =
    map (fun i => Some (nth i w 0)) [2; 3; 4; 5; 6; 7; 8]%nat.
Proof.
  unfold Datalog.line, Datalog.separator. cbn [append].
  rewrite !fields_append by apply decimal_no_separator.
  rewrite fields_single by apply decimal_no_separator.
  cbn [map]. now rewrite !read_decimal_decimal.
Qed.

Section DatalogFacts.
Context {Device : Type}.
Variable shift : Device -> Z -> Device * Z.
Variable ALM_STS : Z.
Implicit Types (g : Datalog.globals Device).

Lemma sensorRead_nine (m : machine Device) :
  exists w0 w1 w2 w3 w4 w5 w6 w7 w8,
    fst (sensorRead shift ALM_STS m) = [w0; w1; w2; w3; w4; w5; w6; w7; w8].
Proof.
  pose proof (sensorRead_run shift ALM_STS m) as R. cbv zeta in R. rewrite R.
  cbn [fst].
  pose proof (exchanges_length shift (selected shift 0 m) (burst_tx ALM_STS))
    as L.
  destruct (snd (exchanges shift (selected shift 0 m) (burst_tx ALM_STS)))
    as [|r0 [|r1 [|r2 [|r3 [|r4 [|r5 [|r6 [|r7 [|r8 [|r9 [|]]]]]]]]]]];
    try discriminate L.
  cbn [tl map]. eexists _, _, _, _, _, _, _, _, _. reflexivity.
Qed.

(** X11: [grabData()] of the datalog sketch keeps the nine words of the
    burst and prints one line.  The line can be read back: cut at the
    separators it has seven fields, and they spell, in decimal, the words 2
    to 8 of that burst, negative values included, so that the status and
    alarm words are left out and no value is lost or merged. *)
Theorem datalog_line_reads_back g :
  let w := fst (sensorRead shift ALM_STS (Datalog.IMU g)) in
  let g' := Datalog.grabData shift ALM_STS g in
  exists s,
    Datalog.serial g' = Datalog.serial g ++ [Serial_println s]
    /\ Datalog.sensorData g' = Some w
    /\ map read_decimal (fields s) = map Some (skipn 2 w).
Proof.
  cbv zeta. unfold Datalog.grabData. cbn [Datalog.serial Datalog.sensorData].
  eexists. split; [reflexivity|]. split; [reflexivity|].
  rewrite line_reads_back.
  destruct (sensorRead_nine (Datalog.IMU g))
    as (w0 & w1 & w2 & w3 & w4 & w5 & w6 & w7 & w8 & E).
  rewrite E. reflexivity.
Qed.

End DatalogFacts.

(** X12: on [int16_t] inputs each of the five scaling functions is strictly
    increasing: a larger raw word gives a larger [float], so that rounding
    to binary32 never merges two different raw words nor swaps their
    order. *)
Theorem scaling_strictly_increasing a b :
  is_i16 a -> is_i16 b -> a < b ->
  (SF2Q (accelScale a) < SF2Q (accelScale b))%Q
  /\ (SF2Q (gyroScale a) < SF2Q (gyroScale b))%Q
  /\ (SF2Q (tempScale a) < SF2Q (tempScale b))%Q
  /\ (SF2Q (deltaAngleScale a) < SF2Q (deltaAngleScale b))%Q
  /\ (SF2Q (deltaVelocityScale a) < SF2Q (deltaVelocityScale b))%Q.
Proof.
  intros Ha Hb Hlt.
  destruct (scaled_values_all a Ha) as ((_ & _ & Aa) & Ga & Ta & Da & Va).
  destruct (scaled_values_all b Hb) as ((_ & _ & Ab) & Gb & Tb & Db & Vb).
  pose proof (inject_Z_bounds a Ha) as Ra.
  pose proof (inject_Z_bounds b Hb) as Rb.
  pose proof (inject_Z_step a b Hlt) as St.
  split; [rewrite Aa, Ab; lra|].
  split.
  { apply (rounded_increasing 0.005 164 _ _ _ _ Ga Gb);
      try (apply Qabs_Qle_condition; split); lra. }
  split.
  { apply (rounded_increasing 0.01429 494 _ _ _ _ Ta Tb);
      try (apply Qabs_Qle_condition; split); lra. }
  split.
  { apply (rounded_increasing 0.022 721 _ _ _ _ Da Db);
      try (apply Qabs_Qle_condition; split); lra. }
  apply (rounded_increasing 6.104 200016 _ _ _ _ Va Vb);
    try (apply Qabs_Qle_condition; split); lra.
Qed.

(** ** Examples on the reference sensor *)

(** The driver calls of [setup()] in the example sketch. *)
Lemma page_selects_follow_page_changes_witness :
  Forall wf_call example_setup_calls
  /\ count_frames PageSelect
       (trace (invoke_all sensor_shift ALM_STS_example example_setup_calls IMU))
     = (count_frames PageSelect (trace IMU)
        + page_changes (currentPage (imu IMU)) example_setup_calls)%nat
  /\ currentPage
       (imu (invoke_all sensor_shift ALM_STS_example example_setup_calls IMU))
     = last_page (currentPage (imu IMU)) example_setup_calls.
Proof.
  assert (W : Forall wf_call example_setup_calls).
  { unfold example_setup_calls.
    repeat apply Forall_cons; try apply Forall_nil; cbn [wf_call];
      unfold is_u16, is_i16, FNCTIO_CTRL, DEC_RATE; lia. }
  split; [exact W|].
  exact (page_selects_follow_page_changes sensor_shift ALM_STS_example
           example_setup_calls IMU W).
Defined.

(** A burst, a reset and a read of page 3. *)
Lemma frames_on_the_bus_witness :
  Forall wf_call [CallBurst; CallReset 10; CallRead FNCTIO_CTRL]
  /\ List.length
       (wire (trace (invoke_all sensor_shift ALM_STS_example
                       [CallBurst; CallReset 10; CallRead FNCTIO_CTRL] IMU)))
     = (List.length (wire (trace IMU))
        + total_access_frames [CallBurst; CallReset 10; CallRead FNCTIO_CTRL]
        + page_changes (currentPage (imu IMU))
            [CallBurst; CallReset 10; CallRead FNCTIO_CTRL])%nat.
Proof.
  assert (W : Forall wf_call [CallBurst; CallReset 10; CallRead FNCTIO_CTRL]).
  { repeat apply Forall_cons; try apply Forall_nil; cbn [wf_call];
      unfold is_u16, FNCTIO_CTRL; lia. }
  split; [exact W|].
  exact (frames_on_the_bus sensor_shift ALM_STS_example _ IMU W).
Defined.


(** A write of -2 to FNCTIO_CTRL. *)
Lemma regWrite_data_bytes_witness :
  is_u16 FNCTIO_CTRL /\ is_i16 (-2)
  /\ exists pre a1 a2 lo hi r1 r2 r3 r4,
       trace (snd (regWrite sensor_shift FNCTIO_CTRL (-2) IMU)) =
         pre ++ [Frame (_CS (imu IMU)) WriteLow a1 lo r1 r2;
                 DelayMicroseconds (_stall (imu IMU));
                 Frame (_CS (imu IMU)) WriteHigh a2 hi r3 r4;
                 DelayMicroseconds (_stall (imu IMU))]
       /\ is_u8 lo /\ is_u8 hi
       /\ join (hi, lo) = -2.
Proof.
  assert (Ha : is_u16 FNCTIO_CTRL) by (unfold is_u16, FNCTIO_CTRL; lia).
  assert (Hd : is_i16 (-2)) by (unfold is_i16; lia).
  split; [exact Ha|]. split; [exact Hd|].
  exact (regWrite_data_bytes sensor_shift FNCTIO_CTRL (-2) IMU Ha Hd).
Defined.

(** A write to 0x0386 is the write to FNCTIO_CTRL, 0x0306. *)
Lemma regWrite_folds_bit7_witness :
  is_u16 FNCTIO_CTRL /\ is_i16 0x0C
  /\ regWrite sensor_shift (Z.lor FNCTIO_CTRL 0x80) 0x0C IMU =
       regWrite sensor_shift FNCTIO_CTRL 0x0C IMU.
Proof.
  assert (Ha : is_u16 FNCTIO_CTRL) by (unfold is_u16, FNCTIO_CTRL; lia).
  assert (Hd : is_i16 0x0C) by (unfold is_i16; lia).
  split; [exact Ha|]. split; [exact Hd|].
  exact (regWrite_folds_bit7 sensor_shift FNCTIO_CTRL 0x0C IMU Ha Hd).
Defined.

(** A read at 0x0386. *)
Lemma regRead_high_offset_witness :
  is_u16 0x0386 /\ 0x80 <= offset_of 0x0386
  /\ exists pre post r1 r2,
       trace (snd (regRead sensor_shift 0x0386 IMU)) =
         pre ++ Frame (_CS (imu IMU)) AddressFrame
                      (write_addr (offset_of 0x0386)) 0x00 r1 r2
             :: post
       /\ count_frames AddressFrame pre = count_frames AddressFrame (trace IMU)
       /\ Z.testbit (write_addr (offset_of 0x0386)) 7 = true.
Proof.
  assert (Ha : is_u16 0x0386) by (unfold is_u16; lia).
  assert (Ho : 0x80 <= offset_of 0x0386) by (vm_compute; discriminate).
  split; [exact Ha|]. split; [exact Ho|].
  exact (regRead_high_offset sensor_shift 0x0386 IMU Ha Ho).
Defined.

(** The first acquisition of the example sketch after [setup()]. *)
Lemma example_grabData_cost_witness :
  is_u16 ALM_STS_example /\ page_of ALM_STS_example = 0
  /\ List.length
       (Example.sensorData
          (Example.grabData sensor_shift ALM_STS_example
             (Example.setup sensor_shift (Example.boot sensor0)))) = 9%nat.
Proof.
  assert (Ha : is_u16 ALM_STS_example)
    by (unfold is_u16, ALM_STS_example; lia).
  assert (Hp : page_of ALM_STS_example = 0) by reflexivity.
  split; [exact Ha|]. split; [exact Hp|].
  exact (proj1 (example_grabData_cost sensor_shift ALM_STS_example
                  (Example.setup sensor_shift (Example.boot sensor0)) Ha Hp)).
Defined.

(** Three acquisitions. *)
Lemma acquisitions_after_setup_witness :
  is_u16 ALM_STS_example /\ page_of ALM_STS_example = 0
  /\ count_frames PageSelect
       (trace (Example.IMU
                 (Nat.iter 3 (Example.grabData sensor_shift ALM_STS_example)
                    (Example.setup sensor_shift (Example.boot sensor0)))))
     = 2%nat.
Proof.
  assert (Ha : is_u16 ALM_STS_example)
    by (unfold is_u16, ALM_STS_example; lia).
  assert (Hp : page_of ALM_STS_example = 0) by reflexivity.
  split; [exact Ha|]. split; [exact Hp|].
  exact (proj1 (acquisitions_after_setup sensor_shift ALM_STS_example
                  sensor0 2 Ha Hp)).
Defined.

(** [scaleData()] on the words of the first acquisition. *)
Lemma example_scaleData_witness :
  Forall is_i16 (Example.sensorData (Example.boot sensor0))
  /\ List.length
       (Example.scaledData (Example.scaleData (Example.boot sensor0)))
     = 7%nat.
Proof.
  assert (H : Forall is_i16 (Example.sensorData (Example.boot sensor0))).
  { cbn [Example.boot Example.sensorData repeat].
    repeat apply Forall_cons; try apply Forall_nil; unfold is_i16; lia. }
  split; [exact H|].
  exact (proj1 (example_scaleData (Example.boot sensor0) H)).
Defined.

(** Two runs of [loop()] from a counter of 199999: one report, with the
    words of the state in it, and the counter at 1. *)
Lemma example_loop_pacing_witness :
  0 <= Example.printCounter example_before_report < 200000
  /\ Example.printCounter (Nat.iter 2 Example.loop example_before_report) = 1
  /\ List.length
       (Example.serial (Nat.iter 2 Example.loop example_before_report))
     = 35%nat
  /\ nth 15 (Example.serial (Nat.iter 2 Example.loop example_before_report))
         (Serial_begin 0)
     = Serial_println_float (gyroScale 100).
Proof.
  assert (H : 0 <= Example.printCounter example_before_report < 200000)
    by (cbn [example_before_report Example.printCounter]; lia).
  split; [exact H|].
  pose proof (example_loop_pacing example_before_report 2 H) as P.
  cbv zeta in P. destruct P as (P1 & P2 & _).
  rewrite P1, P2. split; [reflexivity|]. split; reflexivity.
Defined.

(** [tempScale(-1)] is below [tempScale(0)]. *)
Lemma scaling_strictly_increasing_witness :
  is_i16 (-1) /\ is_i16 0 /\ -1 < 0
  /\ (SF2Q (tempScale (-1)) < SF2Q (tempScale 0))%Q.
Proof.
  assert (A : is_i16 (-1)) by (unfold is_i16; lia).
  assert (B : is_i16 0) by (unfold is_i16; lia).
  assert (C : -1 < 0) by lia.
  split; [exact A|]. split; [exact B|]. split; [exact C|].
  exact (proj1 (proj2 (proj2 (scaling_strictly_increasing (-1) 0 A B C)))).
Defined.
